(** * PandasApiMergeFunction: the pandas-style merge of two TDS frames

    A shallow embedding of
    [pylegend/core/tds/pandas_api/frames/functions/merge.py]:
    key resolution, join-kind resolution, the join condition, the output
    columns, the relational plan ([to_sql]) and the Pure program
    ([to_pure]), followed by the properties the specification states
    about them.

    Python values are embedded as follows.
    - [str] is [string]; [+] on strings is [+:+]; [str.lower] is
      [str_lower], which acts on the ASCII letters (the only characters
      of the recognised join kinds).
    - a raised exception is the [Raise] branch of [result]; the exception
      carries its class and its message as the code builds it.
    - [set] is [gset string]; iterating a set ([list(s)]) goes through
      [set_iter], an enumeration of the set in an order the program does
      not control.
    - [dict] is [gmap].
    - a [for] loop with [raise]/[continue]/[append] is [foldM] over the
      iterated list, the loop state being what the body updates. *)

From Stdlib Require Import Ascii String.
From stdpp Require Import base strings list gmap sets.

Open Scope string_scope.

(** ** Exceptions and results *)

Inductive exn :=
| ValueError (msg : string)
| TypeError (msg : string)
| AttributeError (msg : string).

Inductive result (A : Type) :=
| Ok (a : A)
| Raise (e : exn).
Arguments Ok {A} a.
Arguments Raise {A} e.

#[global] Instance result_ret : MRet result := λ A a, Ok a.
#[global] Instance result_bind : MBind result := λ A B f m,
  match m with
  | Ok a => f a
  | Raise e => Raise e
  end.

Definition raises {A} (r : result A) : Prop := ∃ e, r = Raise e.

(** A [for] loop whose body may raise: [body] maps the loop state and the
    current element to the next state. *)
Fixpoint foldM {A S : Type} (body : S → A → result S) (s : S) (l : list A)
  : result S :=
  match l with
  | [] => Ok s
  | a :: l' => s' ← body s a; foldM body s' l'
  end.

(** ** Strings *)

Definition ascii_lower (c : ascii) : ascii :=
  let n := nat_of_ascii c in
  if (bool_decide (65 ≤ n) && bool_decide (n ≤ 90))%nat
  then ascii_of_nat (n + 32)%nat else c.

Fixpoint str_lower (s : string) : string :=
  match s with
  | EmptyString => EmptyString
  | String c s' => String (ascii_lower c) (str_lower s')
  end.

(** ** Frames and the merge specification *)

Record TdsColumn := mkTdsColumn { get_name : string; get_type : string }.

(** [c.copy()] *)
Definition copy (c : TdsColumn) : TdsColumn :=
  mkTdsColumn (get_name c) (get_type c).

#[global] Instance TdsColumn_eq_dec : EqDecision TdsColumn.
Proof. solve_decision. Defined.

(** A key argument is a bare name or a list of names
    ([PyLegendUnion[str, PyLegendList[str]]]). *)
Inductive KeyArg :=
| KeyName (name : string)
| KeyList (names : list string).

Inductive JoinType := INNER | LEFT | RIGHT | FULL.

#[global] Instance JoinType_eq_dec : EqDecision JoinType.
Proof. solve_decision. Defined.

(** ** The SQL metamodel ([pylegend.core.sql.metamodel])

    The node classes [to_sql] builds, with the fields it passes. The
    last three [Expression] nodes and [Table] are not built by the merge
    itself: they are what the condition renderer and the input frames
    produce. *)

Record QualifiedName := mkQualifiedName { parts : list string }.

Inductive Expression :=
| QualifiedNameReference (name : QualifiedName)
| BooleanLiteral (value : bool)
| ComparisonEqual (lhs rhs : Expression)
| LogicalAnd (lhs rhs : Expression).

Inductive SelectItem :=
| SingleColumn (alias : string) (expression : Expression).

Definition item_alias (i : SelectItem) : string :=
  match i with SingleColumn a _ => a end.

Record Select := mkSelect { selectItems : list SelectItem; distinct : bool }.

Inductive JoinCriteria :=
| JoinOn (expression : Expression).

Inductive Relation :=
| Table (name : QualifiedName)
| AliasedRelation (relation : Relation) (alias : string)
    (columnNames : list string)
| TableSubquery (query : Query)
| Join (type_ : JoinType) (left_rel right_rel : Relation)
    (criteria : JoinCriteria)
with Query :=
| mkQuery (queryBody : QuerySpecification) (limit offset : option Expression)
    (orderBy : list Expression)
with QuerySpecification :=
| mkQuerySpecification (select : Select) (from_ : list Relation)
    (where_ : option Expression) (groupBy : list Expression)
    (having : option Expression) (orderBy : list Expression)
    (limit offset : option Expression).

Definition select_of (q : QuerySpecification) : Select :=
  match q with mkQuerySpecification s _ _ _ _ _ _ _ => s end.

(** [copy_query] is a deep copy: the same value. *)
Definition copy_query (q : QuerySpecification) : QuerySpecification := q.

(** ** The expression language of join conditions

    [PandasApiTdsRow.from_tds_frame(name, frame)] is a row named [name];
    [row[c]] is a column of it; [==] and [&] build the condition.  The
    row keeps the name only: the frame serves to look the column up, and
    every key that reaches the condition is a column of its frame. *)

Record PandasApiTdsRow := from_tds_frame { row_name : string }.

Inductive PyLegendPrimitive :=
| PyLegendBooleanLiteral (value : bool)
| RowColumn (row : PandasApiTdsRow) (col : string)
| PyEq (a b : PyLegendPrimitive)
| PyAnd (a b : PyLegendPrimitive).

(** Iterating a Python set: some enumeration of its elements. *)
Class PySetIteration := {
  set_iter : gset string → list string;
  set_iter_perm : ∀ s, set_iter s ≡ₚ elements s
}.

Module merge.

Section Merge.

(** The collaborators of the merge: the two configurations, the SQL
    helpers of [sql_query_helpers] and of the database extension, the
    renderers of conditions, and the Pure formatting helpers. *)
Context {FrameToSqlConfig FrameToPureConfig : Type}.
Context `{PySetIteration}.

Variable quote_identifier : FrameToSqlConfig → string → string.
Variable create_sub_query :
  QuerySpecification → FrameToSqlConfig → string → QuerySpecification.
Variable extract_columns_for_subquery : QuerySpecification → list string.
Variable to_sql_expression :
  PyLegendPrimitive → gmap string QuerySpecification → FrameToSqlConfig →
  Expression.

Variable separator : FrameToPureConfig → nat → bool → string.
Variable push_indent : FrameToPureConfig → nat → FrameToPureConfig.
Variable to_pure_expression : PyLegendPrimitive → FrameToPureConfig → string.
Variable generate_pure_lambda : string → string → string.

(** A frame: its columns and its already-compiled query and program. *)
Record PandasApiBaseTdsFrame := mkFrame {
  columns : list TdsColumn;
  to_sql_query_object : FrameToSqlConfig → QuerySpecification;
  frame_to_pure : FrameToPureConfig → string
}.

Record PandasApiMergeFunction := mkMerge {
  base_frame : PandasApiBaseTdsFrame;
  other_frame : PandasApiBaseTdsFrame;
  on : option KeyArg;
  left_on : option KeyArg;
  right_on : option KeyArg;
  how : option string;
  suffixes : option (string * string)
}.

(** [__init__]: [other_frame] is a frame by its type, so the
    [isinstance] check passes and the arguments are stored. *)
Definition __init__ (base_frame other_frame : PandasApiBaseTdsFrame)
    (on left_on right_on : option KeyArg) (how : option string)
    (suffixes : option (string * string)) : result PandasApiMergeFunction :=
  Ok (mkMerge base_frame other_frame on left_on right_on how suffixes).

(** *** Key resolution *)

Definition __normalize_keys (candidate : option KeyArg) : list string :=
  match candidate with
  | None => []
  | Some (KeyName s) => [s]
  | Some (KeyList l) => l
  end.

Definition ConflictingKeysError : exn :=
  ValueError "Cannot pass 'on' together with 'left_on' or 'right_on'".
Definition UnknownKeyError_on (k : string) : exn :=
  ValueError ("Merge key '" +:+ k +:+ "' not present in both frames").
Definition UnknownKeyError_left (k : string) : exn :=
  ValueError ("Left key '" +:+ k +:+ "' not found").
Definition UnknownKeyError_right (k : string) : exn :=
  ValueError ("Right key '" +:+ k +:+ "' not found").
Definition KeyLengthMismatchError : exn :=
  ValueError "left_on and right_on must be same length".

Definition left_names (self : PandasApiMergeFunction) : list string :=
  get_name <$> columns (base_frame self).
Definition right_names (self : PandasApiMergeFunction) : list string :=
  get_name <$> columns (other_frame self).

Definition __derive_key_pairs (self : PandasApiMergeFunction)
  : result (list (string * string)) :=
  let left_cols := left_names self in
  let right_cols := right_names self in
  if bool_decide (on self ≠ None)
     && (bool_decide (left_on self ≠ None)
         || bool_decide (right_on self ≠ None))
  then Raise ConflictingKeysError
  else if bool_decide (on self ≠ None) then
    let on_keys := __normalize_keys (on self) in
    _ ← foldM (λ (_ : unit) k,
           if bool_decide (k ∉ left_cols) || bool_decide (k ∉ right_cols)
           then Raise (UnknownKeyError_on k) else Ok ()) () on_keys;
    Ok ((λ k, (k, k)) <$> on_keys)
  else
    let left_keys := __normalize_keys (left_on self) in
    let right_keys := __normalize_keys (right_on self) in
    if bool_decide (left_keys ≠ []) || bool_decide (right_keys ≠ []) then
      if bool_decide (length left_keys ≠ length right_keys)
      then Raise KeyLengthMismatchError
      else
        _ ← foldM (λ (_ : unit) lk,
               if bool_decide (lk ∉ left_cols)
               then Raise (UnknownKeyError_left lk) else Ok ()) () left_keys;
        _ ← foldM (λ (_ : unit) rk,
               if bool_decide (rk ∉ right_cols)
               then Raise (UnknownKeyError_right rk) else Ok ()) () right_keys;
        Ok (zip left_keys right_keys)
    else
      let inferred :=
        set_iter (list_to_set left_cols ∩ list_to_set right_cols) in
      Ok ((λ k, (k, k)) <$> inferred).

(** *** The join condition *)

Definition literal_true : PyLegendPrimitive := PyLegendBooleanLiteral true.

(** The body of the loop over the key pairs: [expr] starts as [None]. *)
Definition condition_step (left_row right_row : PandasApiTdsRow)
    (expr : option PyLegendPrimitive) (p : string * string)
  : option PyLegendPrimitive :=
  let part := PyEq (RowColumn left_row p.1) (RowColumn right_row p.2) in
  Some (match expr with None => part | Some e => PyAnd e part end).

Definition __build_condition (self : PandasApiMergeFunction)
  : result PyLegendPrimitive :=
  key_pairs ← __derive_key_pairs self;
  let left_row := from_tds_frame "left" in
  let right_row := from_tds_frame "right" in
  if bool_decide (key_pairs = []) then Ok literal_true
  else
    match foldl (condition_step left_row right_row) None key_pairs with
    | Some expr => Ok expr
    | None =>
        (* not reached: the loop ran at least once *)
        Raise (AttributeError "'NoneType' object has no attribute")
    end.

(** *** Join-kind resolution *)

Definition UnsupportedJoinKindError (h : string) : exn :=
  ValueError ("Unsupported merge how - " +:+ h).

(** [self.__how.lower()] *)
Definition how_lower (self : PandasApiMergeFunction) : result string :=
  match how self with
  | Some h => Ok (str_lower h)
  | None => Raise (AttributeError "'NoneType' object has no attribute 'lower'")
  end.

(** ["..." + self.__how] *)
Definition how_text (self : PandasApiMergeFunction) : result string :=
  match how self with
  | Some h => Ok h
  | None => Raise (TypeError "can only concatenate str to str")
  end.

Definition __join_type (self : PandasApiMergeFunction) : result JoinType :=
  how_lower ← how_lower self;
  if bool_decide (how_lower = "inner") then Ok INNER
  else if bool_decide (how_lower ∈ ["left"; "left_outer"]) then Ok LEFT
  else if bool_decide (how_lower ∈ ["right"; "right_outer"]) then Ok RIGHT
  else if bool_decide (how_lower ∈ ["outer"; "full"; "full_outer"])
  then Ok FULL
  else h ← how_text self; Raise (UnsupportedJoinKindError h).

(** *** Columns after the merge *)

Definition DuplicateColumnError : exn :=
  ValueError
    "Resulting merged columns contain duplicates after suffix application".

(** [self.__suffixes[0]] and [self.__suffixes[1]] *)
Definition suffixes_0 (self : PandasApiMergeFunction) : result string :=
  match suffixes self with
  | Some (s0, _) => Ok s0
  | None => Raise (TypeError "'NoneType' object is not subscriptable")
  end.
Definition suffixes_1 (self : PandasApiMergeFunction) : result string :=
  match suffixes self with
  | Some (_, s1) => Ok s1
  | None => Raise (TypeError "'NoneType' object is not subscriptable")
  end.

(** [TdsColumn(name, type)]: [TdsColumn], of
    [pylegend.core.tds.tds_column], is the abstract base class of the
    columns (the frames hold columns of its subclasses, which [copy]
    preserves), so the call raises instead of building a column.  The
    message of the error goes on with the abstract methods; its head is
    kept. *)
Definition AbstractTdsColumnError : exn :=
  TypeError "Can't instantiate abstract class TdsColumn".

Definition TdsColumn_init (name type_ : string) : result TdsColumn :=
  Raise AbstractTdsColumnError.

(** [{l for l, r in key_pairs if l == r}] *)
Definition same_name_set (key_pairs : list (string * string)) : gset string :=
  list_to_set (fst <$> filter (λ p : string * string, p.1 = p.2) key_pairs).

(** [(set(left_cols) & set(right_cols)) - same_name_keys] *)
Definition overlapping_set (self : PandasApiMergeFunction)
    (key_pairs : list (string * string)) : gset string :=
  (list_to_set (left_names self) ∩ list_to_set (right_names self))
    ∖ same_name_set key_pairs.

(** [any(name == l and l == r for l, r in key_pairs)] *)
Definition is_same_name_key (key_pairs : list (string * string))
    (name : string) : bool :=
  existsb (λ p : string * string,
             bool_decide (name = p.1) && bool_decide (p.1 = p.2)) key_pairs.

Definition calculate_columns (self : PandasApiMergeFunction)
  : result (list TdsColumn) :=
  key_pairs ← __derive_key_pairs self;
  let overlapping := overlapping_set self key_pairs in
  result_cols ← foldM (λ result_cols c,
      let name := get_name c in
      if bool_decide (name ∈ overlapping) then
        s ← suffixes_0 self;
        col ← TdsColumn_init (name +:+ s) (get_type c);
        Ok (result_cols ++ [col])%list
      else Ok (result_cols ++ [copy c])%list)
    [] (columns (base_frame self));
  result_cols ← foldM (λ result_cols c,
      let name := get_name c in
      if is_same_name_key key_pairs name then Ok result_cols
      else if bool_decide (name ∈ overlapping) then
        s ← suffixes_1 self;
        col ← TdsColumn_init (name +:+ s) (get_type c);
        Ok (result_cols ++ [col])%list
      else Ok (result_cols ++ [copy c])%list)
    result_cols (columns (other_frame self));
  let names := get_name <$> result_cols in
  if bool_decide (length names ≠ size (list_to_set names : gset string))
  then Raise DuplicateColumnError
  else Ok result_cols.

(** *** The relational plan

    The [isinstance(join_condition_expr, bool)] guard of [to_sql] is not
    taken: the condition is always an expression. *)

Definition to_sql (self : PandasApiMergeFunction) (config : FrameToSqlConfig)
  : result QuerySpecification :=
  let left_query := copy_query (to_sql_query_object (base_frame self) config) in
  let right_query :=
    copy_query (to_sql_query_object (other_frame self) config) in
  join_condition_expr ← __build_condition self;
  let join_sql_expr :=
    to_sql_expression join_condition_expr
      {[ "left" := create_sub_query left_query config "left";
         "right" := create_sub_query right_query config "right" ]}
      config in
  let left_alias := quote_identifier config "left" in
  let right_alias := quote_identifier config "right" in
  result_columns ← calculate_columns self;
  key_pairs ← __derive_key_pairs self;
  let same_name_keys := same_name_set key_pairs in
  let overlapping :=
    (list_to_set (left_names self) ∩ list_to_set (right_names self))
      ∖ same_name_keys in
  select_items ← foldM (λ select_items c,
      let orig := get_name c in
      out_name ← (if bool_decide (orig ∈ overlapping)
                  then s ← suffixes_0 self; Ok (orig +:+ s) else Ok orig);
      let q_out := quote_identifier config out_name in
      let q_in := quote_identifier config orig in
      Ok (select_items ++
          [SingleColumn q_out
             (QualifiedNameReference (mkQualifiedName [left_alias; q_in]))])%list)
    [] (columns (base_frame self));
  select_items ← foldM (λ select_items c,
      let orig := get_name c in
      if bool_decide (orig ∈ same_name_keys) then Ok select_items
      else
        out_name ← (if bool_decide (orig ∈ overlapping)
                    then s ← suffixes_1 self; Ok (orig +:+ s) else Ok orig);
        let q_out := quote_identifier config out_name in
        let q_in := quote_identifier config orig in
        Ok (select_items ++
            [SingleColumn q_out
               (QualifiedNameReference
                  (mkQualifiedName [right_alias; q_in]))])%list)
    select_items (columns (other_frame self));
  type_ ← __join_type self;
  let join_spec :=
    mkQuerySpecification
      (mkSelect select_items false)
      [Join type_
         (AliasedRelation
            (TableSubquery (mkQuery left_query None None []))
            left_alias (extract_columns_for_subquery left_query))
         (AliasedRelation
            (TableSubquery (mkQuery right_query None None []))
            right_alias (extract_columns_for_subquery right_query))
         (JoinOn join_sql_expr)]
      None [] None [] None None in
  Ok (create_sub_query join_spec config "root").

(** *** The Pure program

    The rows [left_row] and [right_row] that [to_pure] builds under the
    names "l" and "r" are not used by it. *)

Definition to_pure (self : PandasApiMergeFunction) (config : FrameToPureConfig)
  : result string :=
  how_lower ← how_lower self;
  let join_kind :=
    if bool_decide (how_lower = "inner") then "INNER"
    else if bool_decide (how_lower ∈ ["left"; "left_outer"]) then "LEFT"
    else if bool_decide (how_lower ∈ ["right"; "right_outer"]) then "RIGHT"
    else "FULL" in
  cond_expr ← __build_condition self;
  let cond_str := to_pure_expression cond_expr (push_indent config 2) in
  Ok (frame_to_pure (base_frame self) config +:+ separator config 1 false
      +:+ "->merge(" +:+ separator config 2 false
      +:+ frame_to_pure (other_frame self) (push_indent config 2) +:+ ","
      +:+ separator config 2 true
      +:+ "JoinKind." +:+ join_kind +:+ "," +:+ separator config 2 true
      +:+ generate_pure_lambda "l, r" cond_str +:+ separator config 1 false
      +:+ ")").

(** *** Validation

    A value of [suffixes] other than [None] is a tuple of length 2. *)

Definition validate (self : PandasApiMergeFunction) : result bool :=
  if bool_decide (suffixes self = None)
  then Raise (ValueError "suffixes must be a tuple of length 2")
  else
    _ ← __derive_key_pairs self;
    _ ← __join_type self;
    Ok true.

(** *** The frames of the merge *)

(** [tds_frame_parameters]; [base_frame] is the projection of the
    record. *)
Definition tds_frame_parameters (self : PandasApiMergeFunction)
  : list PandasApiBaseTdsFrame :=
  [other_frame self].

End Merge.

End merge.
Import merge.

(** ** The specification's reading of the operations

    Each definition below follows the words of the specification, to be
    compared with the code's definition above. *)

Module Reference.

(** The eight recognised spellings of a join kind. *)
Definition recognized_spellings : list (string * JoinType) :=
  [("inner", INNER); ("left", LEFT); ("left_outer", LEFT);
   ("right", RIGHT); ("right_outer", RIGHT);
   ("outer", FULL); ("full", FULL); ("full_outer", FULL)].

(** Two strings are the same up to the case of their letters. *)
Definition same_ignoring_case (a b : string) : Prop :=
  str_lower a = str_lower b.

(** The first key of [keys] that is not a column name of [cols]. *)
Definition first_missing (cols keys : list string) : option string :=
  find (λ k, bool_decide (k ∉ cols)) keys.

(** Key resolution with explicit keys: [on] excludes [left_on] and
    [right_on]; the keys of [on] must be columns of both frames and are
    paired with themselves; the keys of [left_on] and [right_on] must be
    as many, columns of their frame, and are paired by position. *)
Definition resolve_explicit_spec (left_cols right_cols : list string)
    (on left_on right_on : option KeyArg)
  : result (list (string * string)) :=
  match on with
  | Some o =>
      match left_on, right_on with
      | None, None =>
          let ks := match o with KeyName k => [k] | KeyList l => l end in
          match find (λ k, negb (bool_decide (k ∈ left_cols ∧ k ∈ right_cols)))
                  ks with
          | Some k => Raise (UnknownKeyError_on k)
          | None => Ok ((λ k, (k, k)) <$> ks)
          end
      | _, _ => Raise ConflictingKeysError
      end
  | None =>
      let lks := __normalize_keys left_on in
      let rks := __normalize_keys right_on in
      if decide (length lks = length rks) then
        match first_missing left_cols lks with
        | Some k => Raise (UnknownKeyError_left k)
        | None =>
            match first_missing right_cols rks with
            | Some k => Raise (UnknownKeyError_right k)
            | None => Ok (zip lks rks)
            end
        end
      else Raise KeyLengthMismatchError
  end.

(** The equality of one key pair, and the predicate of a list of pairs:
    [true] for no pair, else the conjunction from left to right. *)
Definition key_equality (p : string * string) : PyLegendPrimitive :=
  PyEq (RowColumn (from_tds_frame "left") p.1)
       (RowColumn (from_tds_frame "right") p.2).

Definition key_predicate_spec (pairs : list (string * string))
  : PyLegendPrimitive :=
  match pairs with
  | [] => PyLegendBooleanLiteral true
  | p :: ps => foldl (λ e q, PyAnd e (key_equality q)) (key_equality p) ps
  end.

(** A name is a same-named key when it is paired with itself; it is in
    the overlap when both frames have it and it is no same-named key. *)
Definition same_named_key (pairs : list (string * string)) (name : string)
  : Prop := (name, name) ∈ pairs.

#[global] Instance same_named_key_dec pairs name :
  Decision (same_named_key pairs name).
Proof. unfold same_named_key. apply _. Defined.

Definition in_overlap (base other : list TdsColumn)
    (pairs : list (string * string)) (name : string) : Prop :=
  name ∈ (get_name <$> base) ∧ name ∈ (get_name <$> other)
  ∧ ¬ same_named_key pairs name.

#[global] Instance in_overlap_dec base other pairs name :
  Decision (in_overlap base other pairs name).
Proof. unfold in_overlap. apply _. Defined.

Definition with_suffix (base other : list TdsColumn)
    (pairs : list (string * string)) (suffix : string) (c : TdsColumn)
  : TdsColumn :=
  if decide (in_overlap base other pairs (get_name c))
  then mkTdsColumn (get_name c +:+ suffix) (get_type c)
  else c.

(** The output schema: the base columns, then the other columns that
    are no same-named key, each suffixed when in the overlap. *)
Definition output_schema_spec (base other : list TdsColumn)
    (pairs : list (string * string)) (sfx : string * string)
  : list TdsColumn :=
  (with_suffix base other pairs sfx.1 <$> base)
  ++ (with_suffix base other pairs sfx.2
        <$> filter (λ c, ¬ same_named_key pairs (get_name c)) other).

(** The select list of the plan: one item per output column, in schema
    order, mapping the source alias and original name to the output
    name; [q] quotes an identifier. *)
Definition select_list_spec (q : string → string) (base other : list TdsColumn)
    (pairs : list (string * string)) (sfx : string * string)
  : list SelectItem :=
  ((λ c, SingleColumn (q (get_name (with_suffix base other pairs sfx.1 c)))
           (QualifiedNameReference
              (mkQualifiedName [q "left"; q (get_name c)]))) <$> base)
  ++ ((λ c, SingleColumn (q (get_name (with_suffix base other pairs sfx.2 c)))
              (QualifiedNameReference
                 (mkQualifiedName [q "right"; q (get_name c)])))
        <$> filter (λ c, ¬ same_named_key pairs (get_name c)) other).

(** The join with its select list: the two compiled queries wrapped as
    sub-queries aliased "left" and "right", joined with [kind] on
    [criterion], under the select list [items]. *)
Definition join_with_select_spec (q : string → string)
    (column_names : QuerySpecification → list string)
    (left_query right_query : QuerySpecification) (kind : JoinType)
    (criterion : Expression) (items : list SelectItem) : QuerySpecification :=
  mkQuerySpecification
    (mkSelect items false)
    [Join kind
       (AliasedRelation (TableSubquery (mkQuery left_query None None []))
          (q "left") (column_names left_query))
       (AliasedRelation (TableSubquery (mkQuery right_query None None []))
          (q "right") (column_names right_query))
       (JoinOn criterion)]
    None [] None [] None None.

(** The name of a join kind in the Pure program. *)
Definition join_kind_name (k : JoinType) : string :=
  match k with
  | INNER => "INNER"
  | LEFT => "LEFT"
  | RIGHT => "RIGHT"
  | FULL => "FULL"
  end.

(** Reading a condition back: the pairs of column names its equalities
    compare, from left to right, and whether every equality compares a
    column of the row "left" with a column of the row "right". *)
Fixpoint condition_pairs (e : PyLegendPrimitive) : list (string * string) :=
  match e with
  | PyAnd a b => condition_pairs a ++ condition_pairs b
  | PyEq (RowColumn _ l) (RowColumn _ r) => [(l, r)]
  | _ => []
  end.

Fixpoint compares_left_with_right (e : PyLegendPrimitive) : bool :=
  match e with
  | PyLegendBooleanLiteral _ => true
  | PyAnd a b => compares_left_with_right a && compares_left_with_right b
  | PyEq (RowColumn row_l _) (RowColumn row_r _) =>
      bool_decide (row_name row_l = "left")
      && bool_decide (row_name row_r = "right")
  | _ => false
  end.

(** The text of the merge call: the base program, then [->merge(] with
    the other program, the join kind and the lambda of the condition. *)
Definition merge_call_text (base_program sep1 sep2 other_program sep2s
    kind lambda : string) : string :=
  base_program +:+ sep1 +:+ "->merge(" +:+ sep2 +:+ other_program +:+ ","
  +:+ sep2s +:+ "JoinKind." +:+ kind +:+ "," +:+ sep2s +:+ lambda +:+ sep1
  +:+ ")".

Section PlanReference.

Context {FrameToSqlConfig FrameToPureConfig : Type}.

Variable create_sub_query :
  QuerySpecification → FrameToSqlConfig → string → QuerySpecification.
Variable to_sql_expression :
  PyLegendPrimitive → gmap string QuerySpecification → FrameToSqlConfig →
  Expression.

(** The ON criterion of the plan: the key predicate of [pairs] rendered
    against the sub-queries aliased "left" and "right". *)
Definition criterion_of
    (self : @PandasApiMergeFunction FrameToSqlConfig FrameToPureConfig)
    (config : FrameToSqlConfig) (pairs : list (string * string))
  : Expression :=
  to_sql_expression (key_predicate_spec pairs)
    {[ "left" := create_sub_query
                   (to_sql_query_object (base_frame self) config) config "left";
       "right" := create_sub_query
                    (to_sql_query_object (other_frame self) config) config
                    "right" ]}
    config.

End PlanReference.

End Reference.
Import Reference.


(** ** A concrete instantiation

    One choice of the collaborators, on which the theorems are
    instantiated: [sample_set_iteration] enumerates a set with
    [elements]; identifiers are quoted with double quotes; a sub-query
    selects every column of the wrapped query under the alias; the Pure
    rendering is the compact one, without indentation.  The frames and
    the merges are those of the test suite. *)

Module Sample.

Definition sample_set_iteration : PySetIteration :=
  {| set_iter := elements; set_iter_perm := λ s, Permutation_refl _ |}.

Definition dquote : string := String "034"%char EmptyString.

Definition quote_identifier (_ : unit) (s : string) : string :=
  dquote +:+ s +:+ dquote.

Definition aliases_of (q : QuerySpecification) : list string :=
  item_alias <$> selectItems (select_of q).

Definition create_sub_query (q : QuerySpecification) (config : unit)
    (alias : string) : QuerySpecification :=
  let table_alias := quote_identifier config alias in
  mkQuerySpecification
    (mkSelect
       ((λ a, SingleColumn a
                (QualifiedNameReference (mkQualifiedName [table_alias; a])))
          <$> aliases_of q) false)
    [AliasedRelation (TableSubquery (mkQuery q None None [])) table_alias
       (aliases_of q)]
    None [] None [] None None.

Fixpoint to_sql_expression (e : PyLegendPrimitive)
    (frames : gmap string QuerySpecification) (config : unit) : Expression :=
  match e with
  | PyLegendBooleanLiteral b => BooleanLiteral b
  | RowColumn row c =>
      QualifiedNameReference
        (mkQualifiedName [quote_identifier config (row_name row);
                          quote_identifier config c])
  | PyEq a b =>
      ComparisonEqual (to_sql_expression a frames config)
        (to_sql_expression b frames config)
  | PyAnd a b =>
      LogicalAnd (to_sql_expression a frames config)
        (to_sql_expression b frames config)
  end.

Definition separator (_ : unit) (_ : nat) (return_space : bool) : string :=
  if return_space then " " else "".

Definition push_indent (config : unit) (_ : nat) : unit := config.

Fixpoint to_pure_expression (e : PyLegendPrimitive) (config : unit) : string :=
  match e with
  | PyLegendBooleanLiteral b => if b then "true" else "false"
  | RowColumn row c => "$" +:+ row_name row +:+ "." +:+ c
  | PyEq a b =>
      "(" +:+ to_pure_expression a config +:+ " == "
          +:+ to_pure_expression b config +:+ ")"
  | PyAnd a b =>
      "(" +:+ to_pure_expression a config +:+ " && "
          +:+ to_pure_expression b config +:+ ")"
  end.

Definition generate_pure_lambda (params body : string) : string :=
  "{" +:+ params +:+ " | " +:+ body +:+ "}".

(** [PandasApiTableSpecInputFrame([schema, table], columns)] *)
Definition table_frame (schema table : string) (cols : list TdsColumn)
  : @PandasApiBaseTdsFrame unit unit :=
  mkFrame cols
    (λ config,
       mkQuerySpecification
         (mkSelect
            ((λ c, SingleColumn (quote_identifier config (get_name c))
                     (QualifiedNameReference
                        (mkQualifiedName
                           [quote_identifier config "root"; get_name c])))
               <$> cols) false)
         [AliasedRelation (Table (mkQualifiedName [schema; table]))
            (quote_identifier config "root") []]
         None [] None [] None None)
    (λ _, "#Table(" +:+ schema +:+ "." +:+ table +:+ ")#").

Definition integer_column (n : string) := mkTdsColumn n "Integer".
Definition string_column (n : string) := mkTdsColumn n "String".
Definition float_column (n : string) := mkTdsColumn n "Float".

(** The frames of the test suite. *)
Definition columns1 : list TdsColumn :=
  [integer_column "col1"; string_column "col2"; float_column "col3";
   float_column "col4"; float_column "col5"].

Definition columns2 : list TdsColumn :=
  [integer_column "col1"; string_column "pol2"; float_column "pol3"].

Definition columns_pol : list TdsColumn :=
  [integer_column "pol1"; string_column "pol2"; float_column "pol3"].

Definition frame : PandasApiBaseTdsFrame :=
  table_frame "test_schema" "test_table" columns1.

Definition frame2 : PandasApiBaseTdsFrame :=
  table_frame "test_schema" "test_table_2" columns2.

Definition frame_pol : PandasApiBaseTdsFrame :=
  table_frame "test_schema" "test_table_2" columns_pol.

Definition default_suffixes : option (string * string) := Some ("_x", "_y").

(** The merges of the test suite. *)
Definition merge_on_col1 : PandasApiMergeFunction :=
  mkMerge frame frame2 (Some (KeyName "col1")) None None (Some "inner")
    default_suffixes.

Definition merge_two_keys : PandasApiMergeFunction :=
  mkMerge frame frame2 None (Some (KeyList ["col1"; "col2"]))
    (Some (KeyList ["col1"; "pol2"])) (Some "right") default_suffixes.

Definition merge_left_outer : PandasApiMergeFunction :=
  mkMerge frame frame2 (Some (KeyName "col1")) None None (Some "Left_Outer")
    default_suffixes.

Definition merge_cross : PandasApiMergeFunction :=
  mkMerge frame frame2 (Some (KeyName "col1")) None None (Some "cross")
    default_suffixes.

(** Empty [left_on] and [right_on]. *)
Definition merge_empty_keys : PandasApiMergeFunction :=
  mkMerge frame frame2 None (Some (KeyList [])) (Some (KeyList []))
    (Some "inner") default_suffixes.

(** A suffixed name that would collide with a column of the base
    frame: a in both frames, a_y in the base frame. *)
Definition columns_ka : list TdsColumn :=
  [integer_column "k"; string_column "a"; string_column "a_y"].

Definition columns_ka2 : list TdsColumn :=
  [integer_column "k"; string_column "a"].

Definition merge_collision : PandasApiMergeFunction :=
  mkMerge (table_frame "test_schema" "test_table" columns_ka)
    (table_frame "test_schema" "test_table_2" columns_ka2)
    (Some (KeyName "k")) None None (Some "inner") default_suffixes.

(** [frame.merge(frame2)] with its keys inferred. *)
Definition merge_inferred : PandasApiMergeFunction :=
  mkMerge frame frame2 None None None (Some "inner") default_suffixes.

(** A key of [on] that is no column. *)
Definition merge_unknown_key : PandasApiMergeFunction :=
  mkMerge frame frame2 (Some (KeyName "nol")) None None (Some "inner")
    default_suffixes.

(** col1 is in both frames and is no same-named key. *)
Definition merge_suffixed : PandasApiMergeFunction :=
  mkMerge frame frame2 None (Some (KeyName "col1")) (Some (KeyName "pol3"))
    (Some "left") (Some ("_left", "_right")).

Definition columns_on_col1 : list TdsColumn :=
  [integer_column "col1"; string_column "col2"; float_column "col3";
   float_column "col4"; float_column "col5"; string_column "pol2";
   float_column "pol3"].

(** The plan of [merge_on_col1]. *)
Definition plan_on_col1 : QuerySpecification :=
  create_sub_query
    (join_with_select_spec (quote_identifier tt) aliases_of
       (to_sql_query_object frame tt) (to_sql_query_object frame2 tt) INNER
       (criterion_of create_sub_query to_sql_expression merge_on_col1 tt
          [("col1", "col1")])
       (select_list_spec (quote_identifier tt) columns1 columns2
          [("col1", "col1")] ("_x", "_y")))
    tt "root".

End Sample.


(** * Properties *)

Set Default Proof Using "Type".

(** ** Loops *)

Lemma foldM_check {A} (P : A → bool) (E : A → exn) (l : list A) :
  foldM (λ (_ : unit) k, if P k then Raise (E k) else Ok ()) () l
  = match find P l with
    | Some k => Raise (E k)
    | None => Ok ()
    end.
Proof.
  induction l as [|a l IH]; simpl; [done|].
  destruct (P a); simpl; [done|]. exact IH.
Qed.

Lemma foldM_append {A B} (body : list B → A → result (list B))
    (g : A → list B) (l : list A) :
  (∀ acc a, a ∈ l → body acc a = Ok (acc ++ g a)%list) →
  ∀ acc, foldM body acc l = Ok (acc ++ flat_map g l)%list.
Proof.
  induction l as [|a l IH]; intros Hbody acc; simpl.
  - by rewrite app_nil_r.
  - rewrite Hbody by left. simpl.
    rewrite IH; [by rewrite <- app_assoc|].
    intros acc' a' Ha'. apply Hbody. by right.
Qed.

Lemma flat_map_singleton {A B} (f : A → B) (l : list A) :
  flat_map (λ a, [f a]) l = f <$> l.
Proof. induction l as [|a l IH]; simpl; [done|]. by rewrite IH. Qed.

Lemma flat_map_skip {A B} (P : A → Prop) `{∀ a, Decision (P a)}
    (f : A → B) (l : list A) :
  flat_map (λ a, if decide (P a) then [] else [f a]) l
  = f <$> filter (λ a, ¬ P a) l.
Proof.
  induction l as [|a l IH]; simpl; [done|].
  rewrite filter_cons. destruct (decide (P a)) as [Hp|Hp]; simpl.
  - rewrite decide_False by tauto. exact IH.
  - rewrite decide_True by done. simpl. by rewrite IH.
Qed.

Lemma foldM_check_ok {A} (P : A → bool) (E : A → exn) (l : list A) :
  foldM (λ (_ : unit) k, if P k then Raise (E k) else Ok ()) () l = Ok () →
  ∀ a, a ∈ l → P a = false.
Proof.
  induction l as [|a l IH]; simpl; intros Hok b Hb; [by inversion Hb|].
  destruct (P a) eqn:Ha; simpl in Hok; [done|].
  apply elem_of_cons in Hb as [->|Hb]; [done|]. by apply IH.
Qed.

Lemma foldM_raise {A S} (body : S → A → result S) (E : exn) (P : A → Prop)
    `{∀ a, Decision (P a)} (l : list A) :
  (∀ s a, P a → body s a = Raise E) →
  (∀ s a, ¬ P a → ∃ s', body s a = Ok s') →
  (∃ a, a ∈ l ∧ P a) →
  ∀ s, foldM body s l = Raise E.
Proof.
  intros Hraise Hok. induction l as [|a l IH]; intros (b & Hb & HPb) s.
  - by inversion Hb.
  - simpl. destruct (decide (P a)) as [Ha|Ha]; [by rewrite Hraise|].
    destruct (Hok s a Ha) as [s' ->]. simpl. apply IH.
    exists b. split; [|done]. by apply elem_of_cons in Hb as [->|Hb].
Qed.

Lemma filter_ext_in {A} (P1 P2 : A → Prop) `{∀ x, Decision (P1 x)}
    `{∀ x, Decision (P2 x)} (l : list A) :
  (∀ x, x ∈ l → P1 x ↔ P2 x) → filter P1 l = filter P2 l.
Proof.
  induction l as [|a l IH]; intros Hext; [done|].
  rewrite !filter_cons.
  rewrite IH by (intros x Hx; apply Hext; by right).
  destruct (decide (P1 a)) as [Hp|Hp], (decide (P2 a)) as [Hq|Hq]; try done.
  - destruct Hq. apply Hext; [by left|done].
  - destruct Hp. apply Hext; [by left|done].
Qed.

Lemma filter_none {A} (P : A → Prop) `{∀ x, Decision (P x)} (l : list A) :
  (∀ x, x ∈ l → ¬ P x) → filter P l = [].
Proof.
  induction l as [|a l IH]; intros Hl; [done|].
  rewrite filter_cons_False by (apply Hl; by left).
  apply IH. intros x Hx. apply Hl. by right.
Qed.

Section KeysAndColumns.

Context {FrameToSqlConfig FrameToPureConfig : Type}.
Context `{PySetIteration}.

Implicit Types self : @PandasApiMergeFunction FrameToSqlConfig FrameToPureConfig.

(** ** Join-kind resolution *)

Lemma join_type_recognized self h s k :
  how self = Some h →
  (s, k) ∈ recognized_spellings → same_ignoring_case h s →
  __join_type self = Ok k.
Proof.
  intros Hh Hin Hcase. unfold __join_type, how_lower, same_ignoring_case in *.
  rewrite Hh. simpl. unfold recognized_spellings in Hin.
  set_unfold in Hin. destruct_or!; simplify_eq; by rewrite Hcase.
Qed.

Lemma join_type_unrecognized self h :
  how self = Some h →
  (∀ s k, (s, k) ∈ recognized_spellings → ¬ same_ignoring_case h s) →
  __join_type self = Raise (UnsupportedJoinKindError h).
Proof.
  intros Hh Hnone. unfold __join_type, how_lower, same_ignoring_case in *.
  rewrite Hh. simpl.
  assert (str_lower h ∉ recognized_spellings.*1) as Hnotin.
  { intros Hin. apply list_elem_of_fmap in Hin as ([s k] & Heq & Hin).
    apply (Hnone s k Hin). simpl in Heq. rewrite Heq.
    unfold recognized_spellings in Hin. set_unfold in Hin.
    clear Heq. destruct_or!; by simplify_eq. }
  simpl in Hnotin.
  repeat (case_bool_decide; [exfalso; apply Hnotin; set_unfold; tauto|]).
  unfold how_text. by rewrite Hh.
Qed.

(** C8. Join-kind resolution ignores the case of [how]; each of the eight
    recognised spellings resolves to its join kind ("inner" to INNER,
    "left" and "left_outer" to LEFT, "right" and "right_outer" to RIGHT,
    "outer", "full" and "full_outer" to FULL), and every other string
    raises the unsupported-join-kind error carrying that string. *)
Theorem join_type_resolution self h :
  how self = Some h →
  (∀ s k, (s, k) ∈ recognized_spellings → same_ignoring_case h s →
          __join_type self = Ok k)
  ∧ ((∀ s k, (s, k) ∈ recognized_spellings → ¬ same_ignoring_case h s) →
     __join_type self = Raise (UnsupportedJoinKindError h)).
Proof.
  intros Hh. split.
  - intros s k. by apply join_type_recognized.
  - by apply join_type_unrecognized.
Qed.

Lemma find_ext {A} (P Q : A → bool) (l : list A) :
  (∀ a, P a = Q a) → find P l = find Q l.
Proof. intros E. induction l as [|a l IH]; simpl; [done|]. by rewrite E, IH. Qed.

Lemma missing_in_either (k : string) (L R : list string) :
  bool_decide (k ∉ L) || bool_decide (k ∉ R)
  = negb (bool_decide (k ∈ L ∧ k ∈ R)).
Proof. repeat case_bool_decide; simpl; tauto. Qed.

Lemma derive_key_pairs_inferred self :
  on self = None → __normalize_keys (left_on self) = [] →
  __normalize_keys (right_on self) = [] →
  __derive_key_pairs self
  = Ok ((λ k, (k, k))
          <$> set_iter (list_to_set (left_names self)
                        ∩ list_to_set (right_names self))).
Proof. unfold __derive_key_pairs. intros -> -> ->. by simpl. Qed.

Lemma derive_key_pairs_supplied self :
  on self ≠ None ∨ __normalize_keys (left_on self) ≠ []
  ∨ __normalize_keys (right_on self) ≠ [] →
  __derive_key_pairs self
  = resolve_explicit_spec (left_names self) (right_names self)
      (on self) (left_on self) (right_on self).
Proof.
  unfold __derive_key_pairs, resolve_explicit_spec.
  intros Hsupplied. destruct (on self) as [o|] eqn:Hon.
  - rewrite (bool_decide_eq_true_2 (Some o ≠ None)) by done. simpl.
    destruct (left_on self) as [l|], (right_on self) as [r|]; simpl; try done.
    rewrite foldM_check.
    rewrite (find_ext _ _ _ (λ k, missing_in_either k _ _)).
    destruct o; simpl. all: by repeat case_match.
  - rewrite (bool_decide_eq_false_2 (None ≠ None)) by auto. simpl.
    destruct Hsupplied as [?|Hne]; [done|].
    rewrite (proj2 (orb_true_iff _ _)).
    2:{ destruct Hne; [left|right]; by apply bool_decide_eq_true_2. }
    unfold first_missing.
    destruct (decide (length (__normalize_keys (left_on self))
                      = length (__normalize_keys (right_on self)))) as [E|E].
    + rewrite bool_decide_eq_false_2 by auto.
      rewrite !foldM_check.
      destruct (find _ (__normalize_keys (left_on self))); simpl; [done|].
      by destruct (find _ (__normalize_keys (right_on self))).
    + by rewrite bool_decide_eq_true_2.
Qed.

(** C7 (amended). With [on], or with a [left_on] or [right_on] that
    names at least one key, key resolution is the specification's:
    [on] together with [left_on] or [right_on] raises the conflicting-keys
    error; the keys of [on] (a bare name being a one-element list) must
    be columns of both frames, else the unknown-key error names the first
    missing one, and are paired with themselves in their order; the keys
    of [left_on] and [right_on] must be as many, else the length-mismatch
    error, and columns of the base and of the other frame, else the
    unknown-key error, and are paired by position.  With no [on] and
    [left_on] and [right_on] absent or empty, the keys are inferred from
    the common column names. *)
Theorem derive_key_pairs_explicit self :
  (on self ≠ None ∨ __normalize_keys (left_on self) ≠ []
   ∨ __normalize_keys (right_on self) ≠ [] →
   __derive_key_pairs self
   = resolve_explicit_spec (left_names self) (right_names self)
       (on self) (left_on self) (right_on self))
  ∧ (on self = None → __normalize_keys (left_on self) = [] →
     __normalize_keys (right_on self) = [] →
     __derive_key_pairs self
     = Ok ((λ k, (k, k))
             <$> set_iter (list_to_set (left_names self)
                           ∩ list_to_set (right_names self)))).
Proof.
  split.
  - apply derive_key_pairs_supplied.
  - apply derive_key_pairs_inferred.
Qed.

(** ** The join condition *)

Lemma condition_loop_from (ps : list (string * string)) (e : PyLegendPrimitive) :
  foldl (condition_step (from_tds_frame "left") (from_tds_frame "right"))
    (Some e) ps
  = Some (foldl (λ e q, PyAnd e (key_equality q)) e ps).
Proof. revert e. induction ps as [|p ps IH]; intros e; simpl; [done|]. apply IH. Qed.

Lemma build_condition_eq self :
  __build_condition self
  = pairs ← __derive_key_pairs self; Ok (key_predicate_spec pairs).
Proof.
  unfold __build_condition. destruct (__derive_key_pairs self) as [pairs|e]; [|done].
  simpl. destruct pairs as [|p ps]; [done|].
  rewrite bool_decide_eq_false_2 by done. simpl.
  unfold condition_step at 2. simpl. by rewrite condition_loop_from.
Qed.

(** ** Sets of names *)

Lemma elem_of_same_name_set (pairs : list (string * string)) (name : string) :
  name ∈ same_name_set pairs ↔ same_named_key pairs name.
Proof.
  unfold same_name_set, same_named_key.
  rewrite elem_of_list_to_set, list_elem_of_fmap. split.
  - intros ([l r] & -> & Hin). apply list_elem_of_filter in Hin as [E Hin].
    simpl in *. by subst.
  - intros Hin. exists (name, name). split; [done|].
    by apply list_elem_of_filter.
Qed.

Lemma is_same_name_key_spec (pairs : list (string * string)) (name : string) :
  is_same_name_key pairs name = bool_decide (same_named_key pairs name).
Proof.
  unfold is_same_name_key, same_named_key.
  apply eq_true_iff_eq. rewrite existsb_exists, bool_decide_eq_true. split.
  - intros ([l r] & Hin & Hb). apply andb_true_iff in Hb as [E1 E2].
    apply bool_decide_eq_true in E1, E2. simpl in *. subst.
    by apply list_elem_of_In.
  - intros Hin. exists (name, name). split; [by apply list_elem_of_In|].
    simpl. by rewrite !bool_decide_eq_true_2.
Qed.

Lemma elem_of_overlapping_set self (pairs : list (string * string)) name :
  name ∈ overlapping_set self pairs
  ↔ in_overlap (columns (base_frame self)) (columns (other_frame self))
      pairs name.
Proof.
  unfold overlapping_set, in_overlap, left_names, right_names.
  rewrite elem_of_difference, elem_of_intersection, !elem_of_list_to_set,
    elem_of_same_name_set. tauto.
Qed.

Lemma size_list_to_set_le (l : list string) :
  (size (list_to_set l : gset string) ≤ length l)%nat.
Proof.
  induction l as [|a l IH]; [done|].
  rewrite list_to_set_cons. cbn [length].
  destruct (decide (a ∈ l)) as [Hin|Hin].
  - rewrite (subseteq_union_1_L {[a]} (list_to_set l)); [lia|].
    by apply singleton_subseteq_l, elem_of_list_to_set.
  - rewrite size_union, size_singleton; [lia|].
    apply disjoint_singleton_l. by rewrite elem_of_list_to_set.
Qed.

Lemma size_list_to_set_NoDup (l : list string) :
  size (list_to_set l : gset string) = length l ↔ NoDup l.
Proof.
  split; [|apply size_list_to_set].
  induction l as [|a l IH]; [constructor|].
  rewrite list_to_set_cons. cbn [length]. intros Hsize.
  destruct (decide (a ∈ l)) as [Hin|Hin].
  - exfalso. pose proof (size_list_to_set_le l) as Hle.
    rewrite (subseteq_union_1_L {[a]} (list_to_set l)) in Hsize; [lia|].
    by apply singleton_subseteq_l, elem_of_list_to_set.
  - constructor; [done|]. apply IH.
    rewrite size_union, size_singleton in Hsize; [lia|].
    apply disjoint_singleton_l. by rewrite elem_of_list_to_set.
Qed.


(** ** Columns after the merge *)

Lemma copy_id (c : TdsColumn) : copy c = c.
Proof. by destruct c. Qed.

Lemma calculate_columns_no_overlap self pairs :
  __derive_key_pairs self = Ok pairs →
  (∀ n, n ∈ left_names self → n ∈ right_names self →
        same_named_key pairs n) →
  calculate_columns self
  = let cols :=
      (columns (base_frame self)
       ++ filter (λ c, ¬ same_named_key pairs (get_name c))
            (columns (other_frame self)))%list in
    if decide (NoDup (get_name <$> cols)) then Ok cols
    else Raise DuplicateColumnError.
Proof.
  intros Hpairs Hcommon. unfold calculate_columns. rewrite Hpairs. simpl.
  assert (∀ n, n ∉ overlapping_set self pairs) as Hnone.
  { intros n Hn. apply elem_of_overlapping_set in Hn as (Hl & Hr & Hk).
    apply Hk. by apply Hcommon. }
  rewrite (foldM_append _ (λ c, [c])).
  2:{ intros acc c _. rewrite bool_decide_eq_false_2 by apply Hnone.
      by rewrite copy_id. }
  simpl.
  rewrite (foldM_append _
             (λ c, if decide (same_named_key pairs (get_name c)) then []
                   else [c])).
  2:{ intros acc c _. rewrite is_same_name_key_spec.
      destruct (decide (same_named_key pairs (get_name c))) as [Hk|Hk].
      - rewrite bool_decide_eq_true_2 by done. by rewrite app_nil_r.
      - rewrite bool_decide_eq_false_2 by done.
        rewrite bool_decide_eq_false_2 by apply Hnone.
        by rewrite copy_id. }
  simpl. rewrite (flat_map_singleton id), list_fmap_id.
  rewrite (flat_map_skip _ id), list_fmap_id.
  set (cols := (columns (base_frame self) ++ _)%list).
  destruct (decide (NoDup (get_name <$> cols))) as [Hnd|Hnd].
  - rewrite bool_decide_eq_false_2; [done|].
    intros Hne. apply Hne. symmetry. by apply size_list_to_set_NoDup.
  - rewrite bool_decide_eq_true_2; [done|].
    intros Heq. apply Hnd. apply size_list_to_set_NoDup. by symmetry.
Qed.

Lemma no_overlap_names_distinct self pairs :
  (∀ n, n ∈ left_names self → n ∈ right_names self →
        same_named_key pairs n) →
  NoDup (left_names self) → NoDup (right_names self) →
  NoDup (get_name <$>
           (columns (base_frame self)
            ++ filter (λ c, ¬ same_named_key pairs (get_name c))
                 (columns (other_frame self)))%list).
Proof.
  intros Hcommon Hleft Hright. rewrite fmap_app. apply NoDup_app.
  split; [done|]. split.
  - intros n Hl Hr. apply list_elem_of_fmap in Hr as (c & -> & Hc).
    apply list_elem_of_filter in Hc as [Hk Hc]. apply Hk, Hcommon; [done|].
    by apply (list_elem_of_fmap_2 get_name).
  - eapply sublist_NoDup; [exact Hright|].
    apply fmap_sublist, sublist_filter.
Qed.

Lemma calculate_columns_overlap self pairs n :
  __derive_key_pairs self = Ok pairs →
  n ∈ left_names self → n ∈ right_names self → ¬ same_named_key pairs n →
  calculate_columns self
  = Raise (match suffixes self with
           | Some _ => AbstractTdsColumnError
           | None => TypeError "'NoneType' object is not subscriptable"
           end).
Proof.
  intros Hpairs Hl Hr Hk. unfold calculate_columns. rewrite Hpairs. simpl.
  set (E := match suffixes self with
            | Some _ => AbstractTdsColumnError
            | None => TypeError "'NoneType' object is not subscriptable"
            end).
  rewrite (foldM_raise _ E (λ c, get_name c ∈ overlapping_set self pairs));
    [done|..].
  - intros acc c Hc. rewrite bool_decide_eq_true_2 by done.
    unfold E, suffixes_0, TdsColumn_init.
    by destruct (suffixes self) as [[]|].
  - intros acc c Hc. rewrite bool_decide_eq_false_2 by done. by eexists.
  - apply list_elem_of_fmap in Hl as (c & -> & Hc). exists c.
    split; [done|]. apply elem_of_overlapping_set.
    split; [by apply list_elem_of_fmap_2|]. done.
Qed.

Lemma calculate_columns_inv self cols :
  calculate_columns self = Ok cols →
  ∃ pairs,
    __derive_key_pairs self = Ok pairs
    ∧ (∀ n, n ∈ left_names self → n ∈ right_names self →
            same_named_key pairs n)
    ∧ cols = (columns (base_frame self)
              ++ filter (λ c, ¬ same_named_key pairs (get_name c))
                   (columns (other_frame self)))%list
    ∧ NoDup (get_name <$> cols).
Proof.
  intros Hcols. destruct (__derive_key_pairs self) as [pairs|e] eqn:Hpairs.
  2:{ unfold calculate_columns in Hcols. by rewrite Hpairs in Hcols. }
  exists pairs. split; [done|].
  assert (∀ n, n ∈ left_names self → n ∈ right_names self →
               same_named_key pairs n) as Hcommon.
  { intros n Hl Hr. destruct (decide (same_named_key pairs n)); [done|].
    by rewrite (calculate_columns_overlap self pairs n) in Hcols. }
  split; [done|].
  rewrite (calculate_columns_no_overlap self pairs Hpairs Hcommon) in Hcols.
  simpl in Hcols. case_decide; [|done]. by injection Hcols as <-.
Qed.

Lemma with_suffix_no_overlap base other pairs s (c : TdsColumn) :
  (∀ n, n ∈ get_name <$> base → n ∈ get_name <$> other →
        same_named_key pairs n) →
  with_suffix base other pairs s c = c.
Proof.
  intros Hcommon. unfold with_suffix. rewrite decide_False; [done|].
  intros (Hl & Hr & Hk). by apply Hk, Hcommon.
Qed.

Lemma output_schema_spec_no_overlap base other pairs sfx :
  (∀ n, n ∈ get_name <$> base → n ∈ get_name <$> other →
        same_named_key pairs n) →
  output_schema_spec base other pairs sfx
  = (base ++ filter (λ c, ¬ same_named_key pairs (get_name c)) other)%list.
Proof.
  intros Hcommon. unfold output_schema_spec.
  assert (∀ s (l : list TdsColumn), with_suffix base other pairs s <$> l = l)
    as Hid.
  { intros s l. induction l as [|c l IH]; [done|].
    rewrite fmap_cons, IH. by rewrite with_suffix_no_overlap. }
  by rewrite !Hid.
Qed.

(** ** Inferred keys *)

Lemma elem_of_set_iter (S : gset string) (k : string) :
  k ∈ set_iter S ↔ k ∈ S.
Proof. by rewrite (set_iter_perm S), elem_of_elements. Qed.

Lemma set_iter_empty : set_iter ∅ = [].
Proof. apply Permutation_nil_r. by rewrite set_iter_perm, elements_empty. Qed.

Lemma same_named_key_inferred (S : gset string) (n : string) :
  same_named_key ((λ k, (k, k)) <$> set_iter S) n ↔ n ∈ S.
Proof.
  unfold same_named_key. rewrite list_elem_of_fmap. split.
  - intros (k & [= ->] & Hin). by apply elem_of_set_iter.
  - intros Hin. exists n. split; [done|]. by apply elem_of_set_iter.
Qed.

Lemma derive_key_pairs_no_common self :
  on self = None → __normalize_keys (left_on self) = [] →
  __normalize_keys (right_on self) = [] →
  (∀ n, n ∈ left_names self → n ∉ right_names self) →
  __derive_key_pairs self = Ok [].
Proof.
  intros Hon Hl Hr Hdisj. rewrite derive_key_pairs_inferred by done.
  replace (list_to_set (left_names self) ∩ list_to_set (right_names self))
    with (∅ : gset string); [by rewrite set_iter_empty|].
  apply set_eq. intros n.
  rewrite elem_of_intersection, !elem_of_list_to_set.
  split; [by intros ?%not_elem_of_empty|intros [Hl' Hr']; by destruct (Hdisj n)].
Qed.

End KeysAndColumns.

Section PlanAndProgram.

Context {FrameToSqlConfig FrameToPureConfig : Type}.
Context `{PySetIteration}.

Variable quote_identifier : FrameToSqlConfig → string → string.
Variable create_sub_query :
  QuerySpecification → FrameToSqlConfig → string → QuerySpecification.
Variable extract_columns_for_subquery : QuerySpecification → list string.
Variable to_sql_expression :
  PyLegendPrimitive → gmap string QuerySpecification → FrameToSqlConfig →
  Expression.

Variable separator : FrameToPureConfig → nat → bool → string.
Variable push_indent : FrameToPureConfig → nat → FrameToPureConfig.
Variable to_pure_expression : PyLegendPrimitive → FrameToPureConfig → string.
Variable generate_pure_lambda : string → string → string.

Implicit Types self : @PandasApiMergeFunction FrameToSqlConfig FrameToPureConfig.

Abbreviation to_sql :=
  (merge.to_sql quote_identifier create_sub_query extract_columns_for_subquery
     to_sql_expression).
Abbreviation criterion_of :=
  (Reference.criterion_of create_sub_query to_sql_expression).
Abbreviation to_pure :=
  (merge.to_pure separator push_indent to_pure_expression generate_pure_lambda).

(** ** The relational plan *)

Lemma to_sql_eq self config pairs sfx :
  __derive_key_pairs self = Ok pairs →
  (∀ n, n ∈ left_names self → n ∈ right_names self →
        same_named_key pairs n) →
  NoDup (get_name <$>
           (columns (base_frame self)
            ++ filter (λ c, ¬ same_named_key pairs (get_name c))
                 (columns (other_frame self)))%list) →
  to_sql self config
  = kind ← __join_type self;
    Ok (create_sub_query
          (join_with_select_spec (quote_identifier config)
             extract_columns_for_subquery
             (to_sql_query_object (base_frame self) config)
             (to_sql_query_object (other_frame self) config)
             kind (criterion_of self config pairs)
             (select_list_spec (quote_identifier config)
                (columns (base_frame self)) (columns (other_frame self))
                pairs sfx))
          config "root").
Proof.
  intros Hpairs Hcommon Hnd. unfold merge.to_sql.
  rewrite build_condition_eq, Hpairs. simpl.
  rewrite (calculate_columns_no_overlap self pairs Hpairs Hcommon). simpl.
  rewrite decide_True by done. simpl.
  assert (∀ n, n ∉ overlapping_set self pairs) as Hnone.
  { intros n Hn. apply elem_of_overlapping_set in Hn as (Hl & Hr & Hk).
    apply Hk. by apply Hcommon. }
  set (base := columns (base_frame self)) in *.
  set (other := columns (other_frame self)) in *.
  set (q := quote_identifier config).
  rewrite (foldM_append _
            (λ c, [SingleColumn (q (get_name (with_suffix base other pairs sfx.1 c)))
                     (QualifiedNameReference
                        (mkQualifiedName [q "left"; q (get_name c)]))])).
  2:{ intros acc c _. rewrite (with_suffix_no_overlap _ _ _ _ _ Hcommon).
      rewrite bool_decide_eq_false_2; [done|]. apply (Hnone (get_name c)). }
  simpl.
  rewrite (foldM_append _
            (λ c, if decide (same_named_key pairs (get_name c)) then []
                  else [SingleColumn
                          (q (get_name (with_suffix base other pairs sfx.2 c)))
                          (QualifiedNameReference
                             (mkQualifiedName [q "right"; q (get_name c)]))])).
  2:{ intros acc c _. rewrite (with_suffix_no_overlap _ _ _ _ _ Hcommon).
      destruct (decide (same_named_key pairs (get_name c))) as [Hk|Hk].
      - rewrite bool_decide_eq_true_2 by by apply elem_of_same_name_set.
        by rewrite app_nil_r.
      - rewrite bool_decide_eq_false_2 by by rewrite elem_of_same_name_set.
        rewrite bool_decide_eq_false_2; [done|]. apply (Hnone (get_name c)). }
  simpl. by rewrite flat_map_singleton, flat_map_skip.
Qed.

(** C9. Every plan that is emitted is the "root" sub-query of a join with
    its select list: the compiled queries of the two frames wrapped as
    sub-queries aliased "left" and "right", joined with the resolved
    join kind, the ON criterion being the key-equality predicate ([true]
    for no key pair, else the conjunction of the equalities from left to
    right). *)
Theorem to_sql_plan_structure self config plan :
  to_sql self config = Ok plan →
  ∃ pairs kind items,
    __derive_key_pairs self = Ok pairs
    ∧ __join_type self = Ok kind
    ∧ plan = create_sub_query
               (join_with_select_spec (quote_identifier config)
                  extract_columns_for_subquery
                  (to_sql_query_object (base_frame self) config)
                  (to_sql_query_object (other_frame self) config)
                  kind (criterion_of self config pairs) items)
               config "root".
Proof.
  unfold merge.to_sql. rewrite build_condition_eq.
  destruct (__derive_key_pairs self) as [pairs|e]; [simpl|done].
  destruct (calculate_columns self) as [cols|e]; [simpl|done].
  destruct (foldM _ [] _) as [left_items|e]; [simpl|done].
  destruct (foldM _ left_items _) as [items|e]; [simpl|done].
  destruct (__join_type self) as [kind|e]; [simpl|done].
  intros [= <-]. by exists pairs, kind, items.
Qed.

(** The select list of an emitted plan names the output columns, in
    schema order (through the identifier quoting of the database). *)
Lemma select_list_aliases (q : string → string) base other pairs sfx :
  item_alias <$> select_list_spec q base other pairs sfx
  = q <$> (get_name <$> output_schema_spec base other pairs sfx).
Proof.
  unfold select_list_spec, output_schema_spec.
  rewrite !fmap_app, <- !list_fmap_compose. done.
Qed.

(** ** The Pure program *)

Lemma to_pure_unrecognized self h config :
  how self = Some h →
  (∀ s k, (s, k) ∈ recognized_spellings → ¬ same_ignoring_case h s) →
  to_pure self config
  = pairs ← __derive_key_pairs self;
    Ok (frame_to_pure (base_frame self) config +:+ separator config 1 false
        +:+ "->merge(" +:+ separator config 2 false
        +:+ frame_to_pure (other_frame self) (push_indent config 2) +:+ ","
        +:+ separator config 2 true
        +:+ "JoinKind." +:+ "FULL" +:+ "," +:+ separator config 2 true
        +:+ generate_pure_lambda "l, r"
              (to_pure_expression (key_predicate_spec pairs)
                 (push_indent config 2))
        +:+ separator config 1 false +:+ ")").
Proof.
  intros Hh Hnone. unfold merge.to_pure, how_lower, same_ignoring_case in *.
  rewrite Hh. simpl. rewrite build_condition_eq.
  assert (str_lower h ∉ recognized_spellings.*1) as Hnotin.
  { intros Hin. apply list_elem_of_fmap in Hin as ([s k] & Heq & Hin).
    apply (Hnone s k Hin). simpl in Heq. rewrite Heq.
    unfold recognized_spellings in Hin. set_unfold in Hin.
    clear Heq. destruct_or!; by simplify_eq. }
  simpl in Hnotin.
  repeat (case_bool_decide; [exfalso; apply Hnotin; set_unfold; tauto|]).
  by destruct (__derive_key_pairs self).
Qed.

(** C10. For a [how] that is none of the recognised spellings, the Pure
    program is rendered with JoinKind.FULL whenever the keys resolve, and
    its only failures are those of key resolution; the relational plan
    is never emitted for the same input, and the plan and the validation
    raise the unsupported-join-kind error once the keys and the columns
    are resolved. *)
Theorem unrecognized_how_program_and_plan self h config sql_config :
  how self = Some h →
  (∀ s k, (s, k) ∈ recognized_spellings → ¬ same_ignoring_case h s) →
  (∀ pairs, __derive_key_pairs self = Ok pairs →
     to_pure self config
     = Ok (frame_to_pure (base_frame self) config +:+ separator config 1 false
           +:+ "->merge(" +:+ separator config 2 false
           +:+ frame_to_pure (other_frame self) (push_indent config 2) +:+ ","
           +:+ separator config 2 true
           +:+ "JoinKind." +:+ "FULL" +:+ "," +:+ separator config 2 true
           +:+ generate_pure_lambda "l, r"
                 (to_pure_expression (key_predicate_spec pairs)
                    (push_indent config 2))
           +:+ separator config 1 false +:+ ")"))
  ∧ (∀ e, to_pure self config = Raise e → __derive_key_pairs self = Raise e)
  ∧ raises (to_sql self sql_config)
  ∧ (∀ cols, calculate_columns self = Ok cols → suffixes self ≠ None →
       to_sql self sql_config = Raise (UnsupportedJoinKindError h))
  ∧ (∀ pairs, __derive_key_pairs self = Ok pairs → suffixes self ≠ None →
       validate self = Raise (UnsupportedJoinKindError h)).
Proof.
  intros Hh Hnone.
  pose proof (join_type_unrecognized self h Hh Hnone) as Hkind.
  pose proof (to_pure_unrecognized self h config Hh Hnone) as Hpure.
  split; [|split; [|split; [|split]]].
  - intros pairs Hpairs. by rewrite Hpure, Hpairs.
  - intros e. rewrite Hpure.
    destruct (__derive_key_pairs self); simpl; [done|]. by intros [= ->].
  - unfold raises, merge.to_sql. rewrite Hkind.
    destruct (__build_condition self); simpl; [|by eexists].
    destruct (calculate_columns self); simpl; [|by eexists].
    destruct (__derive_key_pairs self); simpl; [|by eexists].
    destruct (foldM _ [] _) as [left_items|]; simpl; [|by eexists].
    destruct (foldM _ left_items _); simpl; by eexists.
  - intros cols Hcols Hsfx.
    apply calculate_columns_inv in Hcols
      as (pairs & Hpairs & Hcommon & -> & Hnd).
    by rewrite (to_sql_eq self sql_config pairs ("", "") Hpairs Hcommon Hnd),
         Hkind.
  - intros pairs Hpairs Hsfx. unfold validate.
    rewrite bool_decide_eq_false_2 by done.
    by rewrite Hpairs, Hkind.
Qed.


(** ** The code on the inputs of its test suite *)

Section Scenarios.

Variables base_query other_query : FrameToSqlConfig → QuerySpecification.
Variables base_program other_program : FrameToPureConfig → string.

(** C1. On [frame.merge(frame2, how="inner", on="col1")], where the key
    col1 is same-named, the emitted program is the base program followed
    by one [->merge(...)] call: the other program is passed as it is, the
    lambda compares the left col1 with the right col1, and nothing
    follows the call. *)
Theorem to_pure_same_named_key_is_bare_merge config :
  to_pure
    (mkMerge (mkFrame Sample.columns1 base_query base_program)
       (mkFrame Sample.columns2 other_query other_program)
       (Some (KeyName "col1")) None None (Some "inner")
       Sample.default_suffixes) config
  = Ok (base_program config +:+ separator config 1 false
        +:+ "->merge(" +:+ separator config 2 false
        +:+ other_program (push_indent config 2) +:+ ","
        +:+ separator config 2 true
        +:+ "JoinKind." +:+ "INNER" +:+ "," +:+ separator config 2 true
        +:+ generate_pure_lambda "l, r"
              (to_pure_expression
                 (PyEq (RowColumn (from_tds_frame "left") "col1")
                       (RowColumn (from_tds_frame "right") "col1"))
                 (push_indent config 2))
        +:+ separator config 1 false +:+ ")").
Proof. reflexivity. Qed.

(** C2. On [frame.merge(frame2, how="inner", on="col1")], which raises
    nothing, the output schema has the seven names col1, col2, col3,
    col4, col5, pol2, pol3 and the select list of the plan carries the
    same names, but the emitted program is the bare [->merge(...)] of the
    two frame programs as they are: it has no projection onto the
    schema, and the col1 of the other frame is neither renamed nor
    dropped. *)
Theorem program_is_not_projected_onto_the_schema config sql_config :
  let self :=
    mkMerge (mkFrame Sample.columns1 base_query base_program)
      (mkFrame Sample.columns2 other_query other_program)
      (Some (KeyName "col1")) None None (Some "inner")
      Sample.default_suffixes in
  calculate_columns self = Ok Sample.columns_on_col1
  ∧ get_name <$> Sample.columns_on_col1
    = ["col1"; "col2"; "col3"; "col4"; "col5"; "pol2"; "pol3"]
  ∧ (∃ join_spec,
       to_sql self sql_config
       = Ok (create_sub_query join_spec sql_config "root")
       ∧ item_alias <$> selectItems (select_of join_spec)
         = quote_identifier sql_config
             <$> ["col1"; "col2"; "col3"; "col4"; "col5"; "pol2"; "pol3"])
  ∧ to_pure self config
    = Ok (base_program config +:+ separator config 1 false
          +:+ "->merge(" +:+ separator config 2 false
          +:+ other_program (push_indent config 2) +:+ ","
          +:+ separator config 2 true
          +:+ "JoinKind." +:+ "INNER" +:+ "," +:+ separator config 2 true
          +:+ generate_pure_lambda "l, r"
                (to_pure_expression
                   (PyEq (RowColumn (from_tds_frame "left") "col1")
                         (RowColumn (from_tds_frame "right") "col1"))
                   (push_indent config 2))
          +:+ separator config 1 false +:+ ")").
Proof.
  intros self. split; [by vm_compute|]. split; [done|]. split; [|done].
  eexists. split; [vm_compute; reflexivity|]. done.
Qed.

(** C3. On [frame.merge(frame2, how="inner")] with no column name in
    common and no explicit key, key resolution returns the empty list of
    pairs, validation passes, the join condition is the literal [true]
    and a plan is emitted. *)
Theorem no_common_column_resolves_to_no_key sql_config :
  let self :=
    mkMerge (mkFrame Sample.columns1 base_query base_program)
      (mkFrame Sample.columns_pol other_query other_program)
      None None None (Some "inner") Sample.default_suffixes in
  __derive_key_pairs self = Ok []
  ∧ validate self = Ok true
  ∧ __build_condition self = Ok (PyLegendBooleanLiteral true)
  ∧ ∃ plan, to_sql self sql_config = Ok plan.
Proof.
  intros self.
  assert (__derive_key_pairs self = Ok []) as Hpairs.
  { apply derive_key_pairs_no_common; try done.
    intros n Hl Hr. vm_compute in Hl, Hr. set_unfold.
    destruct_or!; simplify_eq. }
  assert (__join_type self = Ok INNER) as Hkind by done.
  split; [done|]. split; [|split].
  - unfold validate. by rewrite Hpairs, Hkind.
  - by rewrite build_condition_eq, Hpairs.
  - eexists.
    rewrite (to_sql_eq self sql_config [] ("_x", "_y")), Hkind; try done.
    + intros n Hl Hr. vm_compute in Hl, Hr. set_unfold.
      destruct_or!; simplify_eq.
    + vm_compute. apply NoDup_ListNoDup.
      repeat constructor; simpl; intuition discriminate.
Qed.

(** C5. No column is ever renamed.  Whenever [calculate_columns]
    returns, no column name is in the overlap, so the schema, which is
    then the composition of the specification, is the base columns
    followed by the other columns that are no same-named key, as they
    are.  On [frame.merge(frame2, how="left", left_on="col1",
    right_on="pol3", suffixes=("_left", "_right"))], where col1 is in
    both frames and is no same-named key, the keys resolve and the merge
    validates, but building the renamed column col1_left raises in
    [calculate_columns], hence in [to_sql]. *)
Theorem overlapping_column_is_not_renamed sql_config :
  (∀ self cols sfx,
     calculate_columns self = Ok cols →
     ∃ pairs,
       __derive_key_pairs self = Ok pairs
       ∧ (∀ n, ¬ in_overlap (columns (base_frame self))
                   (columns (other_frame self)) pairs n)
       ∧ cols = output_schema_spec (columns (base_frame self))
                  (columns (other_frame self)) pairs sfx
       ∧ cols = (columns (base_frame self)
                 ++ filter (λ c, ¬ same_named_key pairs (get_name c))
                      (columns (other_frame self)))%list)
  ∧ (let self :=
       mkMerge (mkFrame Sample.columns1 base_query base_program)
         (mkFrame Sample.columns2 other_query other_program)
         None (Some (KeyName "col1")) (Some (KeyName "pol3")) (Some "left")
         (Some ("_left", "_right")) in
     __derive_key_pairs self = Ok [("col1", "pol3")]
     ∧ validate self = Ok true
     ∧ calculate_columns self = Raise AbstractTdsColumnError
     ∧ to_sql self sql_config = Raise AbstractTdsColumnError).
Proof.
  split.
  - intros self cols sfx Hcols.
    apply calculate_columns_inv in Hcols
      as (pairs & Hpairs & Hcommon & -> & _).
    exists pairs. split; [done|]. split; [|split; [|done]].
    + intros n (Hl & Hr & Hk). by apply Hk, Hcommon.
    + by rewrite (output_schema_spec_no_overlap _ _ _ _ Hcommon).
  - repeat split; vm_compute; reflexivity.
Qed.

(** C6. A schema that [calculate_columns] returns has pairwise distinct
    names.  But the duplicate check is not reached on a suffix
    collision: with base columns k, a, a_y, other columns k, a,
    [on="k"] and the suffixes "_x", "_y" (a_y twice after suffixing),
    building the renamed column raises first, in [calculate_columns]
    and in [to_sql]. *)
Theorem suffix_collision_is_not_a_duplicate_error sql_config :
  (∀ self cols,
     calculate_columns self = Ok cols → NoDup (get_name <$> cols))
  ∧ (let self :=
       mkMerge (mkFrame Sample.columns_ka base_query base_program)
         (mkFrame Sample.columns_ka2 other_query other_program)
         (Some (KeyName "k")) None None (Some "inner")
         Sample.default_suffixes in
     calculate_columns self = Raise AbstractTdsColumnError
     ∧ to_sql self sql_config = Raise AbstractTdsColumnError).
Proof.
  split.
  - intros self cols Hcols.
    by apply calculate_columns_inv in Hcols as (_ & _ & _ & _ & Hnd).
  - split; vm_compute; reflexivity.
Qed.

End Scenarios.

(** C4. On [frame.merge(frame, how="inner")], the merge of a frame with
    itself, nothing raises: the merge is constructed, validation passes,
    the output columns are those of the frame, and a plan and a program
    are emitted. *)
Theorem self_merge_is_accepted
    (frame_query : FrameToSqlConfig → QuerySpecification)
    (frame_program : FrameToPureConfig → string) config sql_config :
  let frame := mkFrame Sample.columns1 frame_query frame_program in
  let self :=
    mkMerge frame frame None None None (Some "inner")
      Sample.default_suffixes in
  __init__ frame frame None None None (Some "inner") Sample.default_suffixes
  = Ok self
  ∧ validate self = Ok true
  ∧ calculate_columns self = Ok Sample.columns1
  ∧ (∃ plan, to_sql self sql_config = Ok plan)
  ∧ (∃ program, to_pure self config = Ok program).
Proof.
  intros frame self.
  pose proof (derive_key_pairs_inferred self eq_refl eq_refl eq_refl) as Hpairs.
  set (pairs := (λ k, (k, k)) <$> _) in Hpairs.
  assert (__join_type self = Ok INNER) as Hkind by done.
  assert (∀ n, n ∈ left_names self → same_named_key pairs n) as Hkeys.
  { intros n Hn. apply same_named_key_inferred.
    by apply elem_of_intersection; split; apply elem_of_list_to_set. }
  assert (∀ n, n ∈ left_names self → n ∈ right_names self →
               same_named_key pairs n) as Hcommon
    by (intros n Hn _; by apply Hkeys).
  assert (filter (λ c, ¬ same_named_key pairs (get_name c)) Sample.columns1
          = []) as Hnone.
  { apply filter_none. intros c Hc Hk. apply Hk, Hkeys.
    by apply (list_elem_of_fmap_2 get_name). }
  assert (NoDup (get_name <$> Sample.columns1)) as Hnd.
  { apply NoDup_ListNoDup. repeat constructor; simpl; intuition discriminate. }
  split; [done|]. split; [|split; [|split]].
  - unfold validate. by rewrite Hpairs, Hkind.
  - rewrite (calculate_columns_no_overlap self pairs Hpairs Hcommon).
    change (columns (base_frame self)) with Sample.columns1.
    change (columns (other_frame self)) with Sample.columns1.
    cbv zeta. rewrite Hnone, app_nil_r. by rewrite decide_True.
  - eexists.
    rewrite (to_sql_eq self sql_config pairs ("_x", "_y") Hpairs Hcommon),
      Hkind; [done|].
    change (columns (base_frame self)) with Sample.columns1.
    change (columns (other_frame self)) with Sample.columns1.
    by rewrite Hnone, app_nil_r.
  - unfold merge.to_pure. rewrite build_condition_eq, Hpairs.
    by eexists.
Qed.

End PlanAndProgram.

(** * The theorems on the concrete instantiation *)

Section Instances.

Existing Instance Sample.sample_set_iteration.

Abbreviation sample_to_sql :=
  (merge.to_sql Sample.quote_identifier Sample.create_sub_query
     Sample.aliases_of Sample.to_sql_expression).
Abbreviation sample_to_pure :=
  (merge.to_pure Sample.separator Sample.push_indent
     Sample.to_pure_expression Sample.generate_pure_lambda).

(** The schema of [frame.merge(frame2, how="inner", on="col1")], which
    [calculate_columns] returns, has no name in the overlap. *)
Lemma overlapping_column_is_not_renamed_on_col1 :
  ∃ pairs,
    __derive_key_pairs Sample.merge_on_col1 = Ok pairs
    ∧ (∀ n, ¬ in_overlap Sample.columns1 Sample.columns2 pairs n)
    ∧ Sample.columns_on_col1
      = output_schema_spec Sample.columns1 Sample.columns2 pairs ("_x", "_y")
    ∧ Sample.columns_on_col1
      = (Sample.columns1
         ++ filter (λ c, ¬ same_named_key pairs (get_name c))
              Sample.columns2)%list.
Proof.
  apply (proj1 (overlapping_column_is_not_renamed
                  Sample.quote_identifier Sample.create_sub_query
                  Sample.aliases_of Sample.to_sql_expression
                  (λ _, Sample.plan_on_col1) (λ _, Sample.plan_on_col1)
                  (λ _, "") (λ _, "") tt)
           Sample.merge_on_col1 Sample.columns_on_col1 ("_x", "_y")).
  vm_compute. reflexivity.
Defined.

(** The names of the schema of [frame.merge(frame2, how="inner",
    on="col1")] are distinct. *)
Lemma suffix_collision_is_not_a_duplicate_error_on_col1 :
  NoDup (get_name <$> Sample.columns_on_col1).
Proof.
  apply (proj1 (suffix_collision_is_not_a_duplicate_error
                  Sample.quote_identifier Sample.create_sub_query
                  Sample.aliases_of Sample.to_sql_expression
                  (λ _, Sample.plan_on_col1) (λ _, Sample.plan_on_col1)
                  (λ _, "") (λ _, "") tt)
           Sample.merge_on_col1).
  vm_compute. reflexivity.
Defined.

(** [left_on=["col1", "col2"], right_on=["col1", "pol2"]] is paired by
    position; empty [left_on] and [right_on] infer the common column. *)
Lemma derive_key_pairs_explicit_samples :
  __derive_key_pairs Sample.merge_two_keys
  = Ok [("col1", "col1"); ("col2", "pol2")]
  ∧ __derive_key_pairs Sample.merge_empty_keys = Ok [("col1", "col1")].
Proof.
  split.
  - rewrite (proj1 (derive_key_pairs_explicit Sample.merge_two_keys)).
    + vm_compute. reflexivity.
    + right. left. vm_compute. discriminate.
  - rewrite (proj2 (derive_key_pairs_explicit Sample.merge_empty_keys)).
    + vm_compute. reflexivity.
    + reflexivity.
    + reflexivity.
    + reflexivity.
Defined.

(** The claim as stated fails on empty [left_on] and [right_on]: they are
    supplied, their positional zip is empty, and the code infers the
    common column col1 as the key. *)
Lemma derive_key_pairs_empty_lists_not_zip :
  left_on Sample.merge_empty_keys ≠ None
  ∧ right_on Sample.merge_empty_keys ≠ None
  ∧ resolve_explicit_spec (left_names Sample.merge_empty_keys)
      (right_names Sample.merge_empty_keys) (on Sample.merge_empty_keys)
      (left_on Sample.merge_empty_keys) (right_on Sample.merge_empty_keys)
    = Ok (zip [] [])
  ∧ __derive_key_pairs Sample.merge_empty_keys
    ≠ resolve_explicit_spec (left_names Sample.merge_empty_keys)
        (right_names Sample.merge_empty_keys) (on Sample.merge_empty_keys)
        (left_on Sample.merge_empty_keys) (right_on Sample.merge_empty_keys).
Proof.
  split; [done|]. split; [done|]. split; [reflexivity|].
  vm_compute. discriminate.
Defined.

(** "Left_Outer" resolves to LEFT. *)
Lemma join_type_resolution_left_outer :
  __join_type Sample.merge_left_outer = Ok LEFT.
Proof.
  apply (proj1 (join_type_resolution Sample.merge_left_outer "Left_Outer"
                  eq_refl) "left_outer" LEFT).
  - vm_compute. set_solver.
  - reflexivity.
Defined.

(** The plan of [frame.merge(frame2, how="inner", on="col1")]. *)
Lemma to_sql_plan_structure_on_col1 :
  ∃ pairs kind items,
    __derive_key_pairs Sample.merge_on_col1 = Ok pairs
    ∧ __join_type Sample.merge_on_col1 = Ok kind
    ∧ Sample.plan_on_col1
      = Sample.create_sub_query
          (join_with_select_spec (Sample.quote_identifier tt)
             Sample.aliases_of
             (to_sql_query_object (base_frame Sample.merge_on_col1) tt)
             (to_sql_query_object (other_frame Sample.merge_on_col1) tt)
             kind
             (criterion_of Sample.create_sub_query Sample.to_sql_expression
                Sample.merge_on_col1 tt pairs)
             items)
          tt "root".
Proof.
  apply (to_sql_plan_structure Sample.quote_identifier
           Sample.create_sub_query Sample.aliases_of
           Sample.to_sql_expression Sample.merge_on_col1 tt
           Sample.plan_on_col1).
  vm_compute. reflexivity.
Defined.

(** [how="cross"]: the program is rendered with JoinKind.FULL, the plan
    and the validation raise. *)
Lemma unrecognized_how_cross :
  sample_to_pure Sample.merge_cross tt
  = Ok ("#Table(test_schema.test_table)#->merge("
        +:+ "#Table(test_schema.test_table_2)#, JoinKind.FULL, "
        +:+ "{l, r | ($left.col1 == $right.col1)})")
  ∧ sample_to_sql Sample.merge_cross tt
    = Raise (UnsupportedJoinKindError "cross")
  ∧ validate Sample.merge_cross = Raise (UnsupportedJoinKindError "cross").
Proof.
  assert (∀ s k, (s, k) ∈ recognized_spellings → ¬ same_ignoring_case "cross" s)
    as Hcross.
  { intros s k Hin. unfold recognized_spellings in Hin. set_unfold in Hin.
    destruct_or!; simplify_eq; vm_compute; discriminate. }
  pose proof (unrecognized_how_program_and_plan Sample.quote_identifier
                Sample.create_sub_query Sample.aliases_of
                Sample.to_sql_expression Sample.separator Sample.push_indent
                Sample.to_pure_expression Sample.generate_pure_lambda
                Sample.merge_cross "cross" tt tt eq_refl Hcross)
    as (Hpure & _ & _ & Hsql & Hvalidate).
  split; [|split].
  - rewrite (Hpure [("col1", "col1")]); [reflexivity|].
    vm_compute. reflexivity.
  - apply (Hsql Sample.columns_on_col1); [vm_compute; reflexivity|done].
  - apply (Hvalidate [("col1", "col1")]); [vm_compute; reflexivity|done].
Defined.

End Instances.

(** * Further properties of the code *)

Section Keys.

Context {FrameToSqlConfig FrameToPureConfig : Type}.
Context `{PySetIteration}.

Implicit Types self : @PandasApiMergeFunction FrameToSqlConfig FrameToPureConfig.

(** X1. Every key pair that key resolution returns names a column of the
    base frame on its left and a column of the other frame on its
    right, whichever way the keys were given or inferred. *)
Theorem key_pairs_name_columns self pairs l r :
  __derive_key_pairs self = Ok pairs →
  (l, r) ∈ pairs →
  l ∈ get_name <$> columns (base_frame self)
  ∧ r ∈ get_name <$> columns (other_frame self).
Proof.
  unfold __derive_key_pairs. intros Hpairs Hin.
  fold (left_names self). fold (right_names self).
  destruct (bool_decide (on self ≠ None)
            && (bool_decide (left_on self ≠ None)
                || bool_decide (right_on self ≠ None))); [done|].
  destruct (bool_decide (on self ≠ None)).
  - destruct (foldM _ () (__normalize_keys (on self))) as [[]|e] eqn:Hcheck;
      [simpl in Hpairs|done].
    injection Hpairs as <-.
    apply list_elem_of_fmap in Hin as (k & [= -> ->] & Hk).
    pose proof (foldM_check_ok _ _ _ Hcheck k Hk) as Hboth. simpl in Hboth.
    apply orb_false_iff in Hboth as [Hl Hr].
    apply bool_decide_eq_false in Hl, Hr. split.
    + by destruct (decide (k ∈ left_names self)).
    + by destruct (decide (k ∈ right_names self)).
  - destruct (bool_decide (__normalize_keys (left_on self) ≠ [])
              || bool_decide (__normalize_keys (right_on self) ≠ [])).
    + destruct (bool_decide (length (__normalize_keys (left_on self))
                             ≠ length (__normalize_keys (right_on self))));
        [done|].
      destruct (foldM _ () (__normalize_keys (left_on self)))
        as [[]|e] eqn:Hleft; [simpl in Hpairs|done].
      destruct (foldM _ () (__normalize_keys (right_on self)))
        as [[]|e] eqn:Hright; [simpl in Hpairs|done].
      injection Hpairs as <-.
      pose proof (elem_of_zip_l _ _ _ _ Hin) as Hl.
      pose proof (elem_of_zip_r _ _ _ _ Hin) as Hr.
      pose proof (foldM_check_ok _ _ _ Hleft l Hl) as Hl'.
      pose proof (foldM_check_ok _ _ _ Hright r Hr) as Hr'.
      simpl in Hl', Hr'. apply bool_decide_eq_false in Hl', Hr'. split.
      * by destruct (decide (l ∈ left_names self)).
      * by destruct (decide (r ∈ right_names self)).
    + injection Hpairs as <-.
      apply list_elem_of_fmap in Hin as (k & [= -> ->] & Hk).
      apply elem_of_set_iter, elem_of_intersection in Hk as [Hl Hr].
      by rewrite !elem_of_list_to_set in Hl, Hr.
Qed.

(** X2. With no [on] and [left_on] and [right_on] absent or empty, key
    resolution returns without error, and the pairs are the column names
    the two frames have in common, each once and paired with itself. *)
Theorem inferred_key_pairs self :
  on self = None → __normalize_keys (left_on self) = [] →
  __normalize_keys (right_on self) = [] →
  ∃ pairs,
    __derive_key_pairs self = Ok pairs
    ∧ NoDup pairs
    ∧ ∀ l r, (l, r) ∈ pairs
             ↔ l = r ∧ l ∈ get_name <$> columns (base_frame self)
               ∧ l ∈ get_name <$> columns (other_frame self).
Proof.
  intros Hon Hl Hr. eexists. split; [by apply derive_key_pairs_inferred|].
  split.
  - apply NoDup_fmap_2; [by intros a b [= ->]|].
    rewrite (set_iter_perm _). apply NoDup_elements.
  - intros l r. rewrite list_elem_of_fmap. split.
    + intros (k & [= -> ->] & Hk).
      apply elem_of_set_iter, elem_of_intersection in Hk as [Hkl Hkr].
      by rewrite !elem_of_list_to_set in Hkl, Hkr.
    + intros (Heq & Hkl & Hkr). subst r. exists l. split; [done|].
      apply elem_of_set_iter, elem_of_intersection.
      by rewrite !elem_of_list_to_set.
Qed.

End Keys.

Section Columns.

Context {FrameToSqlConfig FrameToPureConfig : Type}.
Context `{PySetIteration}.

Implicit Types self : @PandasApiMergeFunction FrameToSqlConfig FrameToPureConfig.

(** X3. When every column name the two frames share is a same-named key
    and each frame has distinct column names, the output columns are the
    base columns followed by the other columns that are no same-named
    key, all unchanged: no suffix is applied or even read, and no
    duplicate error is raised. *)
Theorem no_overlap_keeps_columns self pairs :
  __derive_key_pairs self = Ok pairs →
  (∀ n, n ∈ get_name <$> columns (base_frame self) →
        n ∈ get_name <$> columns (other_frame self) →
        same_named_key pairs n) →
  NoDup (get_name <$> columns (base_frame self)) →
  NoDup (get_name <$> columns (other_frame self)) →
  calculate_columns self
  = Ok (columns (base_frame self)
        ++ filter (λ c, ¬ same_named_key pairs (get_name c))
             (columns (other_frame self)))%list.
Proof.
  intros Hpairs Hcommon Hleft Hright.
  rewrite (calculate_columns_no_overlap self pairs Hpairs Hcommon). simpl.
  rewrite decide_True; [done|].
  by apply no_overlap_names_distinct.
Qed.

(** X4. With inferred keys and distinct column names in each frame, the
    output columns are the base columns followed by the columns of the
    other frame whose name the base frame does not have, all unchanged,
    whatever the suffixes. *)
Theorem inferred_keys_schema self :
  on self = None → __normalize_keys (left_on self) = [] →
  __normalize_keys (right_on self) = [] →
  NoDup (get_name <$> columns (base_frame self)) →
  NoDup (get_name <$> columns (other_frame self)) →
  calculate_columns self
  = Ok (columns (base_frame self)
        ++ filter (λ c, get_name c ∉ get_name <$> columns (base_frame self))
             (columns (other_frame self)))%list.
Proof.
  intros Hon Hl Hr Hleft Hright.
  pose proof (derive_key_pairs_inferred self Hon Hl Hr) as Hpairs.
  set (pairs := (λ k, (k, k)) <$> _) in Hpairs.
  assert (∀ n, same_named_key pairs n
               ↔ n ∈ left_names self ∧ n ∈ right_names self) as Hkey.
  { intros n. unfold pairs. rewrite same_named_key_inferred.
    by rewrite elem_of_intersection, !elem_of_list_to_set. }
  assert (∀ n, n ∈ left_names self → n ∈ right_names self →
               same_named_key pairs n) as Hcommon.
  { intros n ? ?. by apply Hkey. }
  rewrite (calculate_columns_no_overlap self pairs Hpairs Hcommon). simpl.
  rewrite decide_True by by apply no_overlap_names_distinct.
  do 2 f_equal. apply filter_ext_in. intros c Hc.
  rewrite Hkey. unfold left_names.
  assert (get_name c ∈ right_names self)
    by by apply (list_elem_of_fmap_2 get_name).
  tauto.
Qed.

(** X5. Merging never changes the type or the order of a column: the
    types of the output columns are the types of the base columns
    followed by the types of the other columns that are no same-named
    key. *)
Theorem output_types_preserved self sfx cols :
  suffixes self = Some sfx →
  calculate_columns self = Ok cols →
  ∃ pairs,
    __derive_key_pairs self = Ok pairs
    ∧ get_type <$> cols
      = ((get_type <$> columns (base_frame self))
         ++ (get_type <$> filter (λ c, ¬ same_named_key pairs (get_name c))
                            (columns (other_frame self))))%list.
Proof.
  intros Hsfx Hcols.
  apply calculate_columns_inv in Hcols as (pairs & Hpairs & _ & -> & _).
  exists pairs. split; [done|]. by rewrite fmap_app.
Qed.

Lemma NoDup_fmap_elem_inj {A B} (f : A → B) (l : list A) (x y : A) :
  NoDup (f <$> l) → x ∈ l → y ∈ l → f x = f y → x = y.
Proof.
  induction l as [|a l IH]; intros Hnd Hx Hy Hf; [by inversion Hx|].
  rewrite fmap_cons in Hnd. apply NoDup_cons in Hnd as [Ha Hnd].
  apply elem_of_cons in Hx as [->|Hx], Hy as [->|Hy]; [done| | |by apply IH].
  - destruct Ha. rewrite Hf. by apply list_elem_of_fmap_2.
  - destruct Ha. rewrite <- Hf. by apply list_elem_of_fmap_2.
Qed.

(** X6. A same-named key column of the base frame is an output column
    as it is, name and type, and it is the only output column of that
    name: the key column of the other frame does not appear. *)
Theorem same_named_key_column_kept self sfx pairs cols c :
  suffixes self = Some sfx →
  __derive_key_pairs self = Ok pairs →
  calculate_columns self = Ok cols →
  c ∈ columns (base_frame self) →
  same_named_key pairs (get_name c) →
  c ∈ cols ∧ ∀ c', c' ∈ cols → get_name c' = get_name c → c' = c.
Proof.
  intros Hsfx Hpairs Hcols Hc Hkey.
  apply calculate_columns_inv in Hcols as (pairs' & _ & _ & -> & Hnd).
  assert (c ∈ (columns (base_frame self)
               ++ filter (λ c, ¬ same_named_key pairs' (get_name c))
                    (columns (other_frame self)))%list) as Hin
    by (apply elem_of_app; by left).
  split; [done|]. intros c' Hc' Hname.
  by apply (NoDup_fmap_elem_inj get_name _ c' c Hnd).
Qed.

End Columns.

Section Condition.

Context {FrameToSqlConfig FrameToPureConfig : Type}.
Context `{PySetIteration}.

Implicit Types self : @PandasApiMergeFunction FrameToSqlConfig FrameToPureConfig.

Lemma condition_pairs_conjunction (ps : list (string * string)) e :
  condition_pairs (foldl (λ e q, PyAnd e (key_equality q)) e ps)
  = (condition_pairs e ++ ps)%list.
Proof.
  revert e. induction ps as [|[l r] ps IH]; intros e; simpl.
  - by rewrite app_nil_r.
  - rewrite IH. simpl. by rewrite <- app_assoc.
Qed.

Lemma compares_conjunction (ps : list (string * string)) e :
  compares_left_with_right e = true →
  compares_left_with_right (foldl (λ e q, PyAnd e (key_equality q)) e ps)
  = true.
Proof.
  revert e. induction ps as [|[l r] ps IH]; intros e He; simpl; [done|].
  apply IH. simpl. by rewrite He.
Qed.

(** X7. The key pairs can be read back from the join condition: the
    equalities of the condition, from left to right, compare exactly the
    resolved key pairs in their order, each a column of the row "left"
    with a column of the row "right"; the condition of no key pair has
    no equality. *)
Theorem condition_reads_back_key_pairs self e :
  __build_condition self = Ok e →
  __derive_key_pairs self = Ok (condition_pairs e)
  ∧ compares_left_with_right e = true.
Proof.
  rewrite build_condition_eq.
  destruct (__derive_key_pairs self) as [pairs|err]; [simpl|done].
  intros [= <-]. destruct pairs as [|[l r] ps]; [done|].
  unfold key_predicate_spec. split.
  - by rewrite condition_pairs_conjunction.
  - by apply compares_conjunction.
Qed.

End Condition.

Section Emitters.

Context {FrameToSqlConfig FrameToPureConfig : Type}.
Context `{PySetIteration}.

Variable quote_identifier : FrameToSqlConfig → string → string.
Variable create_sub_query :
  QuerySpecification → FrameToSqlConfig → string → QuerySpecification.
Variable extract_columns_for_subquery : QuerySpecification → list string.
Variable to_sql_expression :
  PyLegendPrimitive → gmap string QuerySpecification → FrameToSqlConfig →
  Expression.

Variable separator : FrameToPureConfig → nat → bool → string.
Variable push_indent : FrameToPureConfig → nat → FrameToPureConfig.
Variable to_pure_expression : PyLegendPrimitive → FrameToPureConfig → string.
Variable generate_pure_lambda : string → string → string.

Implicit Types self : @PandasApiMergeFunction FrameToSqlConfig FrameToPureConfig.

Abbreviation to_sql :=
  (merge.to_sql quote_identifier create_sub_query extract_columns_for_subquery
     to_sql_expression).
Abbreviation criterion_of :=
  (Reference.criterion_of create_sub_query to_sql_expression).
Abbreviation to_pure :=
  (merge.to_pure separator push_indent to_pure_expression generate_pure_lambda).

(** The program of [self] with the join kind named [kind] and the key
    pairs [pairs]. *)
Abbreviation program_text self config kind pairs :=
  (merge_call_text
     (frame_to_pure (base_frame self) config) (separator config 1 false)
     (separator config 2 false)
     (frame_to_pure (other_frame self) (push_indent config 2))
     (separator config 2 true) kind
     (generate_pure_lambda "l, r"
        (to_pure_expression (key_predicate_spec pairs)
           (push_indent config 2)))).

(** X8. The two emitters agree on the join kind: whenever the join kind
    of the plan resolves, the program names the same kind (INNER, LEFT,
    RIGHT or FULL) in its merge call. *)
Theorem program_names_the_join_kind_of_the_plan self config k pairs :
  __join_type self = Ok k →
  __derive_key_pairs self = Ok pairs →
  to_pure self config = Ok (program_text self config (join_kind_name k) pairs).
Proof.
  intros Hkind Hpairs. unfold merge.to_pure, __join_type in *.
  rewrite build_condition_eq, Hpairs.
  destruct (how_lower self) as [h|e]; [simpl in *|done].
  repeat case_bool_decide; simpl in Hkind; simplify_eq; try done.
  by destruct (how_text self).
Qed.

(** X9. When [how] is a string, the program path fails exactly when key
    resolution fails, and with the same error: it checks neither the
    join kind, nor the suffixes, nor the names of the output columns. *)
Theorem to_pure_fails_as_key_resolution self config h e :
  how self = Some h →
  to_pure self config = Raise e ↔ __derive_key_pairs self = Raise e.
Proof.
  intros Hh. unfold merge.to_pure, how_lower. rewrite Hh. simpl.
  rewrite build_condition_eq.
  destruct (__derive_key_pairs self) as [pairs|err]; simpl; [done|].
  split; by intros [= ->].
Qed.

(** X10. When the output columns and the join kind resolve, the plan is
    emitted, and its select list has one item per output column, in
    schema order: the item is named by the quoted output name and
    references the quoted original name under the alias "left" for a
    base column and "right" for a column of the other frame. *)
Theorem to_sql_select_list self config sfx cols kind :
  suffixes self = Some sfx →
  calculate_columns self = Ok cols →
  __join_type self = Ok kind →
  ∃ pairs,
    __derive_key_pairs self = Ok pairs
    ∧ to_sql self config
      = Ok (create_sub_query
              (join_with_select_spec (quote_identifier config)
                 extract_columns_for_subquery
                 (to_sql_query_object (base_frame self) config)
                 (to_sql_query_object (other_frame self) config)
                 kind (criterion_of self config pairs)
                 (select_list_spec (quote_identifier config)
                    (columns (base_frame self)) (columns (other_frame self))
                    pairs sfx))
              config "root")
    ∧ item_alias
        <$> select_list_spec (quote_identifier config)
              (columns (base_frame self)) (columns (other_frame self))
              pairs sfx
      = quote_identifier config <$> (get_name <$> cols).
Proof.
  intros Hsfx Hcols Hkind.
  apply calculate_columns_inv in Hcols
    as (pairs & Hpairs & Hcommon & -> & Hnd).
  exists pairs. split; [done|]. split.
  - by rewrite (to_sql_eq _ _ _ _ self config pairs sfx Hpairs Hcommon Hnd),
      Hkind.
  - rewrite select_list_aliases.
    by rewrite (output_schema_spec_no_overlap _ _ _ _ Hcommon).
Qed.

Lemma to_sql_raises_columns_error self config e :
  calculate_columns self = Raise e → to_sql self config = Raise e.
Proof.
  intros Hcols. unfold merge.to_sql. rewrite build_condition_eq.
  destruct (__derive_key_pairs self) as [pairs|err] eqn:Hpairs; simpl.
  - by rewrite Hcols.
  - unfold calculate_columns in Hcols. rewrite Hpairs in Hcols.
    simpl in Hcols. congruence.
Qed.

(** X11. The plan path raises the error of the output columns (which
    includes the errors of key resolution) before looking at the join
    kind, and the error of the join kind otherwise. *)
Theorem to_sql_error_order self config :
  (∀ e, calculate_columns self = Raise e → to_sql self config = Raise e)
  ∧ (∀ cols e, suffixes self ≠ None → calculate_columns self = Ok cols →
               __join_type self = Raise e → to_sql self config = Raise e).
Proof.
  split.
  - intros e. apply to_sql_raises_columns_error.
  - intros cols e Hsfx Hcols Hkind.
    apply calculate_columns_inv in Hcols
      as (pairs & Hpairs & Hcommon & -> & Hnd).
    by rewrite (to_sql_eq _ _ _ _ self config pairs ("", "") Hpairs Hcommon
                  Hnd), Hkind.
Qed.

(** X12. With suffixes given, a plan is emitted exactly when the merge
    validates and its output columns are computed. *)
Theorem to_sql_returns_iff_valid_and_columns self config sfx :
  suffixes self = Some sfx →
  (∃ plan, to_sql self config = Ok plan)
  ↔ validate self = Ok true ∧ ∃ cols, calculate_columns self = Ok cols.
Proof.
  intros Hsfx. unfold validate. rewrite Hsfx. simpl.
  destruct (__derive_key_pairs self) as [pairs|err] eqn:Hpairs; simpl.
  2:{ unfold merge.to_sql. rewrite build_condition_eq, Hpairs. simpl.
      split; [by intros [? ?]|by intros [? _]]. }
  destruct (calculate_columns self) as [cols|e] eqn:Hcols.
  - apply calculate_columns_inv in Hcols
      as (pairs' & Hpairs' & Hcommon & -> & Hnd).
    rewrite (to_sql_eq _ _ _ _ self config pairs' sfx Hpairs' Hcommon Hnd).
    destruct (__join_type self) as [kind|e]; simpl.
    + split; [by eauto|by eexists].
    + split; [by intros [? ?]|by intros [? _]].
  - split; [|by intros [_ [? ?]]]. intros [plan Hplan].
    by rewrite (to_sql_raises_columns_error self config e Hcols) in Hplan.
Qed.

(** X13. A column name the two frames share that is no same-named key
    stops the merge: with suffixes given, building the renamed column
    raises the TypeError of the abstract column class, in
    [calculate_columns] and in [to_sql], so no column is ever
    suffixed. *)
Theorem overlapping_name_raises self config sfx pairs n :
  suffixes self = Some sfx →
  __derive_key_pairs self = Ok pairs →
  n ∈ get_name <$> columns (base_frame self) →
  n ∈ get_name <$> columns (other_frame self) →
  ¬ same_named_key pairs n →
  calculate_columns self = Raise AbstractTdsColumnError
  ∧ to_sql self config = Raise AbstractTdsColumnError.
Proof.
  intros Hsfx Hpairs Hl Hr Hk.
  assert (calculate_columns self = Raise AbstractTdsColumnError) as Hcols.
  { rewrite (calculate_columns_overlap self pairs n Hpairs Hl Hr Hk).
    by rewrite Hsfx. }
  split; [done|]. by apply to_sql_raises_columns_error.
Qed.

End Emitters.

Section Overlap.

Context {FrameToSqlConfig FrameToPureConfig : Type}.
Context `{PySetIteration}.

Implicit Types self : @PandasApiMergeFunction FrameToSqlConfig FrameToPureConfig.

(** X14. When each frame has distinct column names and the keys resolve,
    [calculate_columns] never raises the duplicate-column error: the
    check on the names can fail only on a frame that repeats a name. *)
Theorem distinct_names_never_duplicate_error self pairs :
  __derive_key_pairs self = Ok pairs →
  NoDup (get_name <$> columns (base_frame self)) →
  NoDup (get_name <$> columns (other_frame self)) →
  calculate_columns self ≠ Raise DuplicateColumnError.
Proof.
  intros Hpairs Hleft Hright.
  destruct (decide (Exists (λ n, n ∈ right_names self
                                 ∧ ¬ same_named_key pairs n)
                      (left_names self))) as [Hex|Hno].
  - apply Exists_exists in Hex as (n & Hl & Hr & Hk).
    rewrite (calculate_columns_overlap self pairs n Hpairs Hl Hr Hk).
    by destruct (suffixes self).
  - assert (∀ n, n ∈ left_names self → n ∈ right_names self →
                 same_named_key pairs n) as Hcommon.
    { intros n Hl Hr. destruct (decide (same_named_key pairs n)); [done|].
      destruct Hno. apply Exists_exists. by exists n. }
    rewrite (calculate_columns_no_overlap self pairs Hpairs Hcommon). simpl.
    by rewrite decide_True by by apply no_overlap_names_distinct.
Qed.

End Overlap.

(** * The further properties on the concrete instantiation *)

Section MoreInstances.

Existing Instance Sample.sample_set_iteration.

Abbreviation sample_to_sql :=
  (merge.to_sql Sample.quote_identifier Sample.create_sub_query
     Sample.aliases_of Sample.to_sql_expression).
Abbreviation sample_to_pure :=
  (merge.to_pure Sample.separator Sample.push_indent
     Sample.to_pure_expression Sample.generate_pure_lambda).

Lemma key_pairs_name_columns_two_keys :
  "col2" ∈ get_name <$> Sample.columns1
  ∧ "pol2" ∈ get_name <$> Sample.columns2.
Proof.
  apply (key_pairs_name_columns Sample.merge_two_keys
           [("col1", "col1"); ("col2", "pol2")] "col2" "pol2").
  - vm_compute. reflexivity.
  - apply list_elem_of_further, list_elem_of_here.
Defined.

Lemma inferred_key_pairs_sample :
  ∃ pairs,
    __derive_key_pairs Sample.merge_inferred = Ok pairs
    ∧ NoDup pairs
    ∧ ∀ l r, (l, r) ∈ pairs
             ↔ l = r ∧ l ∈ get_name <$> Sample.columns1
               ∧ l ∈ get_name <$> Sample.columns2.
Proof.
  apply (inferred_key_pairs Sample.merge_inferred); reflexivity.
Defined.

Lemma no_overlap_keeps_columns_on_col1 :
  calculate_columns Sample.merge_on_col1 = Ok Sample.columns_on_col1.
Proof.
  rewrite (no_overlap_keeps_columns Sample.merge_on_col1 [("col1", "col1")]).
  - vm_compute. reflexivity.
  - vm_compute. reflexivity.
  - intros n Hl Hr. vm_compute in Hl, Hr. unfold same_named_key.
    set_unfold. destruct_or!; simplify_eq; tauto.
  - apply (bool_decide_unpack _). vm_compute. exact I.
  - apply (bool_decide_unpack _). vm_compute. exact I.
Defined.

Lemma inferred_keys_schema_sample :
  calculate_columns Sample.merge_inferred = Ok Sample.columns_on_col1.
Proof.
  rewrite (inferred_keys_schema Sample.merge_inferred).
  - vm_compute. reflexivity.
  - reflexivity.
  - reflexivity.
  - reflexivity.
  - apply (bool_decide_unpack _). vm_compute. exact I.
  - apply (bool_decide_unpack _). vm_compute. exact I.
Defined.

Lemma output_types_preserved_on_col1 :
  ∃ pairs,
    __derive_key_pairs Sample.merge_on_col1 = Ok pairs
    ∧ get_type <$> Sample.columns_on_col1
      = ((get_type <$> Sample.columns1)
         ++ (get_type <$> filter (λ c, ¬ same_named_key pairs (get_name c))
                            Sample.columns2))%list.
Proof.
  apply (output_types_preserved Sample.merge_on_col1 ("_x", "_y")
           Sample.columns_on_col1).
  - reflexivity.
  - vm_compute. reflexivity.
Defined.

Lemma same_named_key_column_kept_col1 :
  Sample.integer_column "col1" ∈ Sample.columns_on_col1
  ∧ ∀ c', c' ∈ Sample.columns_on_col1 →
          get_name c' = get_name (Sample.integer_column "col1") →
          c' = Sample.integer_column "col1".
Proof.
  apply (same_named_key_column_kept Sample.merge_on_col1 ("_x", "_y")
           [("col1", "col1")]).
  - reflexivity.
  - vm_compute. reflexivity.
  - vm_compute. reflexivity.
  - apply list_elem_of_here.
  - apply list_elem_of_here.
Defined.

Lemma condition_reads_back_two_keys :
  __derive_key_pairs Sample.merge_two_keys
  = Ok (condition_pairs
          (PyAnd (key_equality ("col1", "col1"))
                 (key_equality ("col2", "pol2"))))
  ∧ compares_left_with_right
      (PyAnd (key_equality ("col1", "col1"))
             (key_equality ("col2", "pol2"))) = true.
Proof.
  apply (condition_reads_back_key_pairs Sample.merge_two_keys).
  vm_compute. reflexivity.
Defined.

Lemma program_names_left_for_left_outer :
  sample_to_pure Sample.merge_left_outer tt
  = Ok ("#Table(test_schema.test_table)#->merge("
        +:+ "#Table(test_schema.test_table_2)#, JoinKind.LEFT, "
        +:+ "{l, r | ($left.col1 == $right.col1)})").
Proof.
  rewrite (program_names_the_join_kind_of_the_plan Sample.separator
             Sample.push_indent Sample.to_pure_expression
             Sample.generate_pure_lambda Sample.merge_left_outer tt LEFT
             [("col1", "col1")]).
  - vm_compute. reflexivity.
  - vm_compute. reflexivity.
  - vm_compute. reflexivity.
Defined.

Lemma to_pure_fails_on_unknown_key :
  sample_to_pure Sample.merge_unknown_key tt = Raise (UnknownKeyError_on "nol").
Proof.
  apply (to_pure_fails_as_key_resolution Sample.separator Sample.push_indent
           Sample.to_pure_expression Sample.generate_pure_lambda
           Sample.merge_unknown_key tt "inner").
  - reflexivity.
  - vm_compute. reflexivity.
Defined.

Lemma to_sql_select_list_on_col1 :
  ∃ pairs,
    __derive_key_pairs Sample.merge_on_col1 = Ok pairs
    ∧ sample_to_sql Sample.merge_on_col1 tt
      = Ok (Sample.create_sub_query
              (join_with_select_spec (Sample.quote_identifier tt)
                 Sample.aliases_of
                 (to_sql_query_object (base_frame Sample.merge_on_col1) tt)
                 (to_sql_query_object (other_frame Sample.merge_on_col1) tt)
                 INNER
                 (criterion_of Sample.create_sub_query Sample.to_sql_expression
                    Sample.merge_on_col1 tt pairs)
                 (select_list_spec (Sample.quote_identifier tt)
                    Sample.columns1 Sample.columns2 pairs ("_x", "_y")))
              tt "root")
    ∧ item_alias
        <$> select_list_spec (Sample.quote_identifier tt)
              Sample.columns1 Sample.columns2 pairs ("_x", "_y")
      = Sample.quote_identifier tt <$> (get_name <$> Sample.columns_on_col1).
Proof.
  apply (to_sql_select_list Sample.quote_identifier Sample.create_sub_query
           Sample.aliases_of Sample.to_sql_expression Sample.merge_on_col1 tt
           ("_x", "_y") Sample.columns_on_col1 INNER).
  - reflexivity.
  - vm_compute. reflexivity.
  - vm_compute. reflexivity.
Defined.

Lemma to_sql_error_order_samples :
  sample_to_sql Sample.merge_unknown_key tt = Raise (UnknownKeyError_on "nol")
  ∧ sample_to_sql Sample.merge_collision tt = Raise AbstractTdsColumnError
  ∧ sample_to_sql Sample.merge_cross tt
    = Raise (UnsupportedJoinKindError "cross").
Proof.
  split; [|split].
  - apply (proj1 (to_sql_error_order Sample.quote_identifier
                    Sample.create_sub_query Sample.aliases_of
                    Sample.to_sql_expression Sample.merge_unknown_key tt)).
    vm_compute. reflexivity.
  - apply (proj1 (to_sql_error_order Sample.quote_identifier
                    Sample.create_sub_query Sample.aliases_of
                    Sample.to_sql_expression Sample.merge_collision tt)).
    vm_compute. reflexivity.
  - apply (proj2 (to_sql_error_order Sample.quote_identifier
                    Sample.create_sub_query Sample.aliases_of
                    Sample.to_sql_expression Sample.merge_cross tt)
             Sample.columns_on_col1).
    + discriminate.
    + vm_compute. reflexivity.
    + vm_compute. reflexivity.
Defined.

Lemma to_sql_returns_on_col1 :
  ∃ plan, sample_to_sql Sample.merge_on_col1 tt = Ok plan.
Proof.
  apply (proj2 (to_sql_returns_iff_valid_and_columns Sample.quote_identifier
                  Sample.create_sub_query Sample.aliases_of
                  Sample.to_sql_expression Sample.merge_on_col1 tt
                  ("_x", "_y") eq_refl)).
  split.
  - vm_compute. reflexivity.
  - exists Sample.columns_on_col1. vm_compute. reflexivity.
Defined.

Lemma overlapping_name_raises_col1 :
  calculate_columns Sample.merge_suffixed = Raise AbstractTdsColumnError
  ∧ sample_to_sql Sample.merge_suffixed tt = Raise AbstractTdsColumnError.
Proof.
  apply (overlapping_name_raises Sample.quote_identifier
           Sample.create_sub_query Sample.aliases_of
           Sample.to_sql_expression Sample.merge_suffixed tt
           ("_left", "_right") [("col1", "pol3")] "col1").
  - reflexivity.
  - vm_compute. reflexivity.
  - apply list_elem_of_here.
  - apply list_elem_of_here.
  - unfold same_named_key. simpl. intros Hin.
    apply list_elem_of_singleton in Hin. discriminate.
Defined.

Lemma distinct_names_never_duplicate_error_collision :
  calculate_columns Sample.merge_collision ≠ Raise DuplicateColumnError.
Proof.
  apply (distinct_names_never_duplicate_error Sample.merge_collision
           [("k", "k")]).
  - vm_compute. reflexivity.
  - apply (bool_decide_unpack _). vm_compute. exact I.
  - apply (bool_decide_unpack _). vm_compute. exact I.
Defined.

End MoreInstances.
